(** * A shallow embedding of [app/open-source/main.py]

    The script is a sequential orchestration of library calls: it reads its
    configuration, validates it, loads a local generation model, walks a
    directory for PDF files and runs one retrieval-augmented question per
    file.  The embedding below keeps the control flow of the script (the
    order of calls, the [try]/[except Exception] block, the early [return],
    [sys.exit]) and records every observable action in a trace.  The
    libraries the script calls (PyPDF loading, the text splitter, the
    embedding model, FAISS, the llama.cpp binding, the chain) are not part
    of the repository: their answers are fields of a [World]. *)

From Stdlib Require Import String Ascii List ZArith Bool Lia.
From Stdlib Require Import Sorting.Sorted Sorting.Permutation.
Import ListNotations.
Local Open Scope string_scope.
Local Open Scope list_scope.

(** ** Python strings *)

Module PyStr.

(** One line feed: the [\n] of the Python literals. *)
Definition nl : string := String (ascii_of_nat 10) EmptyString.

(** [c.lower()] on one character.  Only [A]..[Z] change; no character
    outside ASCII lowercases to one of [.], [p], [d], [f], so this is
    exact for the suffix test of the script. *)
Definition lower_ascii (c : ascii) : ascii :=
  let n := nat_of_ascii c in
  if andb (Nat.leb 65 n) (Nat.leb n 90) then ascii_of_nat (n + 32) else c.

(** [s.lower()] *)
Fixpoint lower (s : string) : string :=
  match s with
  | EmptyString => EmptyString
  | String c r => String (lower_ascii c) (lower r)
  end.

(** [s.endswith(suf)] *)
Definition endswith (s suf : string) : bool :=
  let n := String.length s in
  let k := String.length suf in
  andb (Nat.leb k n) (String.eqb (substring (n - k) k s) suf).

(** [s.startswith(pre)] *)
Definition startswith (s pre : string) : bool := prefix pre s.

(** Truth value of a [str]-or-[None] value: [None] and the empty string
    are false. *)
Definition truthy (o : option string) : bool :=
  match o with
  | None => false
  | Some s => negb (String.eqb s "")
  end.

Definition is_digit (c : ascii) : bool :=
  let n := nat_of_ascii c in andb (Nat.leb 48 n) (Nat.leb n 57).

Definition digit_val (c : ascii) : Z := Z.of_nat (nat_of_ascii c - 48).

(** The white space [int()] strips from both ends (ASCII part). *)
Definition is_space (c : ascii) : bool :=
  let n := nat_of_ascii c in
  orb (andb (Nat.leb 9 n) (Nat.leb n 13))
      (orb (andb (Nat.leb 28 n) (Nat.leb n 31)) (Nat.eqb n 32)).

Fixpoint lstrip (l : list ascii) : list ascii :=
  match l with
  | c :: r => if is_space c then lstrip r else l
  | [] => []
  end.

Definition strip (l : list ascii) : list ascii :=
  rev (lstrip (rev (lstrip l))).

(** Decimal digits with single underscores between digits.
    [after_digit] says that the previous character was a digit: an
    underscore is accepted only there, and the literal must end there. *)
Fixpoint digits (l : list ascii) (acc : Z) (after_digit : bool) : option Z :=
  match l with
  | [] => if after_digit then Some acc else None
  | c :: r =>
      if is_digit c then digits r (10 * acc + digit_val c)%Z true
      else if andb (Ascii.eqb c "_"%char) after_digit then digits r acc false
      else None
  end.

(** [int(s)] for a [str] in base 10: [None] stands for [ValueError].
    A string is a sequence of ASCII characters here: surrounding white
    space is stripped, one sign is accepted, then digits with single
    underscores between them.  The decimal digits and spaces outside
    ASCII that Python also accepts, and its limit on the number of
    digits, are not modelled. *)
Definition int (s : string) : option Z :=
  match strip (list_ascii_of_string s) with
  | "-"%char :: r => option_map Z.opp (digits r 0%Z false)
  | "+"%char :: r => digits r 0%Z false
  | l => digits l 0%Z false
  end.

(** [repr(s)] as it appears in the message of the [ValueError]. *)
Definition repr (s : string) : string := "'" ++ s ++ "'".

End PyStr.

(** ** The file system, [os.path] and [os.walk] *)

Module Os.

(** The content of a directory as [os.scandir] lists it: the names of the
    entries that are not directories, and the sub-directories with their
    own content. *)
#[warnings="-register-all"] Inductive dirtree : Type :=
| Dir (files : list string) (subdirs : list (string * dirtree)).

(** What a path names, when it names something. *)
Inductive node : Type :=
| NFile
| NDir (t : dirtree).

(** [os.path.join(a, b)] (posixpath) *)
Definition path_join (a b : string) : string :=
  if PyStr.startswith b "/" then b
  else if orb (String.eqb a "") (PyStr.endswith a "/") then a ++ b
  else a ++ "/" ++ b.

(** [os.path.isabs(p)] (posixpath) *)
Definition path_isabs (p : string) : bool := PyStr.startswith p "/".

(** [os.walk(top)], top-down, on the content [t] of [top]: one triple
    [(dirpath, dirnames, filenames)] for the directory itself, then the
    triples of every sub-directory in turn.  The sub-directories of the
    tree are the ones the walk enters: a symbolic link to a directory and
    a directory that cannot be read, which the walk lists but does not
    enter, have no content here. *)
Fixpoint walk (top : string) (t : dirtree)
  : list (string * list string * list string) :=
  match t with
  | Dir files subdirs =>
      (top, map fst subdirs, files)
        :: flat_map (fun d => walk (path_join top (fst d)) (snd d)) subdirs
  end.

(** Every file below [top], as the pair of the path of its directory and
    its name. *)
Fixpoint files_under (top : string) (t : dirtree) : list (string * string) :=
  match t with
  | Dir files subdirs =>
      map (pair top) files
        ++ flat_map (fun d => files_under (path_join top (fst d)) (snd d))
             subdirs
  end.

End Os.

(** ** The objects of the libraries

    Each object is the record of the arguments it was built from. *)

(** [LlamaCpp(model_path=..., n_ctx=..., verbose=...)].  The model path is
    the value of [args.model_path], which is a [str] or [None]. *)
Record LlamaCpp : Type := mkLlamaCpp {
  llm_model_path : option string;
  llm_n_ctx : Z;
  llm_verbose : bool
}.

(** [PromptTemplate(template=..., input_variables=...)] *)
Record PromptTemplate : Type := mkPromptTemplate {
  template : string;
  input_variables : list string
}.

(** A LangChain [Document]: only its text is read by the script. *)
Record Document : Type := mkDocument {
  page_content : string
}.

(** [RecursiveCharacterTextSplitter(chunk_size=..., chunk_overlap=...)]:
    the two lengths are all the script passes; how the library cuts a text
    with them is not part of the repository. *)
Record TextSplitter : Type := mkTextSplitter {
  chunk_size : Z;
  chunk_overlap : Z
}.

Definition RecursiveCharacterTextSplitter (size overlap : Z) : TextSplitter :=
  {| chunk_size := size; chunk_overlap := overlap |}.

(** [HuggingFaceEmbeddings(model_name=...)] *)
Record HuggingFaceEmbeddings : Type := mkHuggingFaceEmbeddings {
  model_name : string
}.

(** [FAISS.from_texts(texts, embedding)] *)
Record FAISS : Type := mkFAISS {
  faiss_texts : list string;
  faiss_embedding : HuggingFaceEmbeddings
}.

(** [db.as_retriever()] *)
Record Retriever : Type := mkRetriever {
  vectorstore : FAISS
}.

(** [RetrievalQA.from_chain_type(llm=..., chain_type=..., retriever=...,
    chain_type_kwargs={"prompt": ...}, verbose=...)] *)
Record RetrievalQA : Type := mkRetrievalQA {
  qa_llm : LlamaCpp;
  qa_chain_type : string;
  qa_retriever : Retriever;
  qa_prompt : PromptTemplate;
  qa_verbose : bool
}.

(** What [rag.invoke] returns: any Python object.  [obj_str] is what
    [print] shows for it; [obj_items] is [Some] for a [dict], with the text
    of each value under its key. *)
Record PyObject : Type := mkPyObject {
  obj_str : string;
  obj_items : option (list (string * string))
}.

(** [d[key]] in an association list. *)
Fixpoint dict_get (key : string) (items : list (string * string))
  : option string :=
  match items with
  | [] => None
  | (k, v) :: r => if String.eqb k key then Some v else dict_get key r
  end.

(** The value under ["result"] when [isinstance(output, dict) and
    "result" in output]. *)
Definition output_result (output : PyObject) : option string :=
  match obj_items output with
  | Some items => dict_get "result" items
  | None => None
  end.

(** ** Exceptions, events and the monad of the script *)

(** The exceptions of a run.  [Exception msg] is any instance of
    [Exception], with [msg] its [str()]; [SystemExit code] is what
    [sys.exit(code)] raises, which [except Exception] does not catch. *)
Inductive exn : Type :=
| Exception (msg : string)
| SystemExit (code : Z).

Inductive result (A : Type) : Type :=
| Ok (a : A)
| Raise (e : exn).
Arguments Ok {A} a.
Arguments Raise {A} e.

(** The answer of a library call: a value, or a failure, which the call
    raises as an instance of [Exception] with the given text.  A library
    fails with a subclass of [Exception]; a signal of the interpreter such
    as [KeyboardInterrupt], which no handler of the script would catch, is
    not an answer of a library. *)
Inductive response (A : Type) : Type :=
| Returns (a : A)
| Fails (msg : string).
Arguments Returns {A} a.
Arguments Fails {A} msg.

(** The observable actions of a run, in the order they happen. *)
Inductive event : Type :=
| EPrint (line : string)
| EStderr (line : string)
| ELlamaCpp (llm : LlamaCpp)
| ELoadAndSplit (pdf_path : string)
| ESplitDocuments (splitter : TextSplitter) (pages : list Document)
| EHuggingFaceEmbeddings (name : string)
| EFaissFromTexts (texts : list string) (embedding : HuggingFaceEmbeddings)
| ERetrievalQA (chain : RetrievalQA)
| EInvoke (chain : RetrievalQA) (question : option string).

Definition trace : Type := list event.

(** The command line, after [argparse] has recognised the flags: the text
    given with each flag, if the flag is there.  A command line is made
    of the six flags of the script; the requests [argparse] answers by
    itself ([-h] and [--help], which print the help and exit with status
    0) and the flags it does not know are not command lines here. *)
Record CommandLine : Type := mkCommandLine {
  cli_model_path : option string;
  cli_pdf_dir : option string;
  cli_embedding_model : option string;
  cli_n_ctx : option string;
  cli_question : option string;
  cli_verbose : bool
}.

(** Everything outside the script.  The environment is the one
    [os.getenv] sees after [load_dotenv()].  A library call answers
    according to the actions of the run so far and to its arguments. *)
Record World : Type := mkWorld {
  w_argv : CommandLine;
  w_getenv : string -> option string;
  w_stat : string -> option Os.node;
  w_llama_cpp : trace -> LlamaCpp -> response unit;
  w_load_and_split : trace -> string -> response (list Document);
  w_split_documents :
    trace -> TextSplitter -> list Document -> response (list Document);
  w_embeddings : trace -> string -> response unit;
  w_faiss_from_texts :
    trace -> list string -> HuggingFaceEmbeddings -> response unit;
  w_retrieval_qa : trace -> RetrievalQA -> response unit;
  w_invoke : trace -> RetrievalQA -> option string -> response PyObject
}.

Definition M (A : Type) : Type := trace -> trace * result A.

Definition ret {A} (a : A) : M A := fun tr => (tr, Ok a).

Definition bind {A B} (m : M A) (f : A -> M B) : M B :=
  fun tr =>
    match m tr with
    | (tr', Ok a) => f a tr'
    | (tr', Raise e) => (tr', Raise e)
    end.

Definition raise {A} (e : exn) : M A := fun tr => (tr, Raise e).

Declare Scope py_scope.
Delimit Scope py_scope with py.
Notation "x <- m ;; k" := (bind m (fun x => k))
  (at level 61, m at next level, right associativity) : py_scope.
Notation "m ;; k" := (bind m (fun _ => k))
  (at level 61, right associativity) : py_scope.
Local Open Scope py_scope.

(** [print(line)] *)
Definition print (line : string) : M unit :=
  fun tr => (tr ++ [EPrint line], Ok tt).

(** A line on the standard error. *)
Definition eprint (line : string) : M unit :=
  fun tr => (tr ++ [EStderr line], Ok tt).

(** [sys.exit(code)] *)
Definition sys_exit {A} (code : Z) : M A := raise (SystemExit code).

(** A library call: the action is recorded, and the answer of the world to
    the run so far is returned or raised. *)
Definition call {A} (ev : event) (answer : trace -> response A) : M A :=
  fun tr =>
    (tr ++ [ev],
     match answer tr with
     | Returns a => Ok a
     | Fails msg => Raise (Exception msg)
     end).

(** [try: body  except Exception as exc: handler(exc)] *)
Definition try_except_Exception {A} (body : M A) (handler : string -> M A)
  : M A :=
  fun tr =>
    match body tr with
    | (tr', Raise (Exception msg)) => handler msg tr'
    | r => r
    end.

(** [if cond: body] *)
Definition when (cond : bool) (body : M unit) : M unit :=
  if cond then body else ret tt.

(** [for x in xs: body(x)] *)
Fixpoint for_each {A} (xs : list A) (body : A -> M unit) : M unit :=
  match xs with
  | [] => ret tt
  | x :: r => body x ;; for_each r body
  end.

(** The exit status of the process: 0 when [main] returns, the code of a
    [SystemExit], and 1 when another exception reaches the top level. *)
Definition exit_status {A} (r : result A) : Z :=
  match r with
  | Ok _ => 0
  | Raise (SystemExit code) => code
  | Raise (Exception _) => 1
  end.

(** ** [list.sort()] on paths *)

(** Insertion of one path into a sorted list.  [String.leb] is the order of
    Python on [str]: code point by code point, a proper prefix first. *)
Fixpoint insert_sorted (x : string) (l : list string) : list string :=
  match l with
  | [] => [x]
  | y :: r => if String.leb x y then x :: y :: r else y :: insert_sorted x r
  end.

(** [l.sort()]: the order on [str] is total, so the sorted list is the same
    whatever the sorting algorithm. *)
Fixpoint list_sort (l : list string) : list string :=
  match l with
  | [] => []
  | x :: r => insert_sorted x (list_sort r)
  end.

(** ** The script *)

(** The [argparse.Namespace] returned by [parse_args]. *)
Record Namespace : Type := mkNamespace {
  model_path : option string;
  pdf_dir : string;
  embedding_model : string;
  n_ctx : Z;
  question : option string;
  verbose : bool
}.

(** [os.getenv(name, default)] *)
Definition getenv_default (w : World) (name default : string) : string :=
  match w_getenv w name with
  | Some v => v
  | None => default
  end.

(** [int(s)], raising [ValueError] when [s] is not an integer literal. *)
Definition int_or_ValueError (s : string) : M Z :=
  match PyStr.int s with
  | Some n => ret n
  | None =>
      raise (Exception
               ("invalid literal for int() with base 10: " ++ PyStr.repr s))
  end.

(** What [argparse] does with a [--n-ctx] value that [type=int] rejects: a
    message on the standard error and [SystemExit(2)]. *)
Definition argparse_int (flag s : string) : M Z :=
  match PyStr.int s with
  | Some n => ret n
  | None =>
      eprint ("error: argument " ++ flag ++ ": invalid int value: "
                ++ PyStr.repr s) ;;
      sys_exit 2
  end.

Definition or_default {A} (given : option A) (default : A) : A :=
  match given with
  | Some v => v
  | None => default
  end.

(** [parse_args()].  The default of every flag is computed while the
    parser is built, the one of [--n-ctx] with [int(...)], before the
    command line is read. *)
Definition parse_args (w : World) : M Namespace :=
  let default_model_path := w_getenv w "MODEL_PATH" in
  let default_pdf_dir := getenv_default w "PDF_DIR" "./pdf" in
  let default_embedding_model :=
    getenv_default w "EMBEDDING_MODEL" "BAAI/bge-small-en-v1.5" in
  default_n_ctx <- int_or_ValueError (getenv_default w "N_CTX" "4096") ;;
  let default_question := w_getenv w "QUESTION" in
  let argv := w_argv w in
  given_n_ctx <- match cli_n_ctx argv with
                 | Some s => argparse_int "--n-ctx" s
                 | None => ret default_n_ctx
                 end ;;
  ret {| model_path := match cli_model_path argv with
                       | Some p => Some p
                       | None => default_model_path
                       end;
         pdf_dir := or_default (cli_pdf_dir argv) default_pdf_dir;
         embedding_model :=
           or_default (cli_embedding_model argv) default_embedding_model;
         n_ctx := given_n_ctx;
         question := match cli_question argv with
                     | Some q => Some q
                     | None => default_question
                     end;
         verbose := cli_verbose argv |}.

(** [os.path.isabs(p)] and [os.path.exists(p)] on a value that is a [str]
    or [None]: on [None] they raise [TypeError]. *)
Definition os_path_isabs (p : option string) : M bool :=
  match p with
  | Some s => ret (Os.path_isabs s)
  | None =>
      raise (Exception
               "expected str, bytes or os.PathLike object, not NoneType")
  end.

Definition exists_at (w : World) (s : string) : bool :=
  match w_stat w s with
  | Some _ => true
  | None => false
  end.

Definition isdir_at (w : World) (s : string) : bool :=
  match w_stat w s with
  | Some (Os.NDir _) => true
  | _ => false
  end.

Definition os_path_exists (w : World) (p : option string) : M bool :=
  match p with
  | Some s => ret (exists_at w s)
  | None =>
      raise (Exception
               "stat: path should be string, bytes, os.PathLike or integer, not NoneType")
  end.

(** The text of a [str]-or-[None] value inside an f-string. *)
Definition fmt (p : option string) : string :=
  match p with
  | Some s => s
  | None => "None"
  end.

(** [validate_inputs(model_path, pdf_dir, question)] *)
Definition validate_inputs (w : World)
    (model_path : option string) (pdf_dir : string) (question : option string)
  : M unit :=
  when (negb (PyStr.truthy model_path))
    (print "ERROR: --model-path is required (or set MODEL_PATH in .env)" ;;
     sys_exit 2) ;;
  isabs <- os_path_isabs model_path ;;
  when (negb isabs)
    (print "ERROR: --model-path must be an absolute path to the GGUF file" ;;
     sys_exit 2) ;;
  found <- os_path_exists w model_path ;;
  when (negb found)
    (print ("ERROR: model file not found: " ++ fmt model_path) ;;
     sys_exit 2) ;;
  when (negb (isdir_at w pdf_dir))
    (print ("ERROR: pdf directory not found: " ++ pdf_dir) ;;
     sys_exit 2) ;;
  when (negb (PyStr.truthy question))
    (print "ERROR: --question is required (or set QUESTION in .env)" ;;
     sys_exit 2).

(** [build_llm(model_path, n_ctx, verbose)]: the generation model is
    loaded here. *)
Definition build_llm (w : World)
    (model_path : option string) (n_ctx : Z) (verbose : bool) : M LlamaCpp :=
  let llm := {| llm_model_path := model_path; llm_n_ctx := n_ctx;
                llm_verbose := verbose |} in
  call (ELlamaCpp llm) (fun tr => w_llama_cpp w tr llm) ;;
  ret llm.

(** [build_prompt()] *)
Definition build_prompt : PromptTemplate :=
  {| template :=
       ("<|user|>" ++ PyStr.nl
        ++ "Relevant information:" ++ PyStr.nl ++ "{context}"
        ++ PyStr.nl ++ PyStr.nl
        ++ "Provide a concise answer the following question using the relevant information provided above:"
        ++ PyStr.nl
        ++ "{question}<|end|>" ++ PyStr.nl ++ "<|assistant|>")%string;
     input_variables := ["context"; "question"] |}.

(** [extract_text_chunks_from_pdf(pdf_path)] *)
Definition extract_text_chunks_from_pdf (w : World) (pdf_path : string)
  : M (list string) :=
  pages <- call (ELoadAndSplit pdf_path)
             (fun tr => w_load_and_split w tr pdf_path) ;;
  let text_splitter := RecursiveCharacterTextSplitter 500 200 in
  texts <- call (ESplitDocuments text_splitter pages)
             (fun tr => w_split_documents w tr text_splitter pages) ;;
  ret (map page_content texts).

Definition is_empty {A} (l : list A) : bool :=
  match l with
  | [] => true
  | _ :: _ => false
  end.

(** The lines of [run_rag_over_pdf]. *)
Definition header_line (pdf_path : string) : string :=
  PyStr.nl ++ "Processing File: " ++ pdf_path.

Definition skip_line : string := "No text extracted; skipping.".

Definition failed_line (pdf_path exc : string) : string :=
  "Failed to process " ++ pdf_path ++ ": " ++ exc.

(** The body of the [try] of [run_rag_over_pdf]. *)
Definition rag_body (w : World)
    (pdf_path : string) (question : option string) (llm : LlamaCpp)
    (embedding_model_name : string) (prompt : PromptTemplate) (verbose : bool)
  : M unit :=
  text_chunks <- extract_text_chunks_from_pdf w pdf_path ;;
  if is_empty text_chunks then
    print skip_line
  else
    let embeddings := {| model_name := embedding_model_name |} in
    call (EHuggingFaceEmbeddings embedding_model_name)
      (fun tr => w_embeddings w tr embedding_model_name) ;;
    let db := {| faiss_texts := text_chunks; faiss_embedding := embeddings |} in
    call (EFaissFromTexts text_chunks embeddings)
      (fun tr => w_faiss_from_texts w tr text_chunks embeddings) ;;
    let rag := {| qa_llm := llm; qa_chain_type := "stuff";
                  qa_retriever := {| vectorstore := db |};
                  qa_prompt := prompt; qa_verbose := verbose |} in
    call (ERetrievalQA rag) (fun tr => w_retrieval_qa w tr rag) ;;
    output <- call (EInvoke rag question)
                (fun tr => w_invoke w tr rag question) ;;
    match output_result output with
    | Some answer => print answer
    | None => print (obj_str output)
    end.

(** [run_rag_over_pdf(pdf_path, question, llm, embedding_model_name,
    prompt, verbose)] *)
Definition run_rag_over_pdf (w : World)
    (pdf_path : string) (question : option string) (llm : LlamaCpp)
    (embedding_model_name : string) (prompt : PromptTemplate) (verbose : bool)
  : M unit :=
  print (header_line pdf_path) ;;
  try_except_Exception
    (rag_body w pdf_path question llm embedding_model_name prompt verbose)
    (fun exc => print (failed_line pdf_path exc)).

(** The test of the discovery loop: [name.lower().endswith(".pdf")]. *)
Definition is_pdf_name (name : string) : bool :=
  PyStr.endswith (PyStr.lower name) ".pdf".

(** [os.walk(top)] in the world: nothing when [top] is not a directory. *)
Definition os_walk (w : World) (top : string)
  : list (string * list string * list string) :=
  match w_stat w top with
  | Some (Os.NDir t) => Os.walk top t
  | _ => []
  end.

(** The two nested loops of [main] that fill [pdf_paths]. *)
Definition collect_pdf_paths
    (triples : list (string * list string * list string)) : list string :=
  flat_map
    (fun triple =>
       match triple with
       | (dirpath, _, filenames) =>
           map (Os.path_join dirpath) (filter is_pdf_name filenames)
       end)
    triples.

(** [pdf_paths] after [pdf_paths.sort()]. *)
Definition discover (w : World) (top : string) : list string :=
  list_sort (collect_pdf_paths (os_walk w top)).

(** The [for path in pdf_paths] loop of [main]. *)
Definition process_all (w : World) (args : Namespace) (llm : LlamaCpp)
    (prompt : PromptTemplate) (pdf_paths : list string) : M unit :=
  for_each pdf_paths
    (fun path =>
       run_rag_over_pdf w path (question args) llm (embedding_model args)
         prompt (verbose args)).

Definition no_pdfs_line (dir : string) : string := "No PDFs found in " ++ dir.

(** [main()] *)
Definition main (w : World) : M unit :=
  args <- parse_args w ;;
  validate_inputs w (model_path args) (pdf_dir args) (question args) ;;
  llm <- build_llm w (model_path args) (n_ctx args) (verbose args) ;;
  let prompt := build_prompt in
  let pdf_paths := discover w (pdf_dir args) in
  when (is_empty pdf_paths)
    (print (no_pdfs_line (pdf_dir args)) ;;
     sys_exit 0) ;;
  process_all w args llm prompt pdf_paths.

(** A run of the script from the start. *)
Definition run (w : World) : trace * result unit := main w [].

(** ** Concrete worlds

    Small worlds on which the script is run by evaluation. *)

Module Demo.

Definition no_flags : CommandLine :=
  {| cli_model_path := None; cli_pdf_dir := None;
     cli_embedding_model := None; cli_n_ctx := None;
     cli_question := None; cli_verbose := false |}.

(** An environment given as a list of bindings. *)
Definition env_of (bindings : list (string * string)) (name : string)
  : option string := dict_get name bindings.

(** A file system given as a list of paths. *)
Fixpoint fs_of (nodes : list (string * Os.node)) (path : string)
  : option Os.node :=
  match nodes with
  | [] => None
  | (p, n) :: r => if String.eqb p path then Some n else fs_of r path
  end.

Definition model_file : string := "/models/m.gguf".

Definition base_env : list (string * string) :=
  [("MODEL_PATH", model_file); ("QUESTION", "What is the main topic?")].

(** [./pdf] holds [b.pdf], [a.pdf], a text file, and a sub-directory with
    [C.PDF]. *)
Definition tree_three : Os.dirtree :=
  Os.Dir ["b.pdf"; "a.pdf"; "notes.txt"] [("sub", Os.Dir ["C.PDF"] [])].

Definition tree_two : Os.dirtree := Os.Dir ["b.pdf"; "a.pdf"] [].

Definition tree_one : Os.dirtree := Os.Dir ["a.pdf"] [].


Definition fs_with (t : Os.dirtree) : string -> option Os.node :=
  fs_of [(model_file, Os.NFile); ("./pdf", Os.NDir t)].

Definition answer : PyObject :=
  {| obj_str := "{'query': 'What is the main topic?', 'result': 'Cats.'}";
     obj_items := Some [("query", "What is the main topic?");
                        ("result", "Cats.")] |}.

Definition one_page : list Document :=
  [{| page_content := "Cats are small carnivorous mammals." |}].

(** A world where every library call succeeds, with the given
    environment, tree under [./pdf] and loader. *)
Definition world_with (env : list (string * string)) (t : Os.dirtree)
    (loader : string -> response (list Document))
    (embeddings : string -> response unit) : World :=
  {| w_argv := no_flags;
     w_getenv := env_of env;
     w_stat := fs_with t;
     w_llama_cpp := fun _ _ => Returns tt;
     w_load_and_split := fun _ path => loader path;
     w_split_documents := fun _ _ pages => Returns pages;
     w_embeddings := fun _ name => embeddings name;
     w_faiss_from_texts := fun _ _ _ => Returns tt;
     w_retrieval_qa := fun _ _ => Returns tt;
     w_invoke := fun _ _ _ => Returns answer |}.

Definition good_loader (path : string) : response (list Document) :=
  Returns one_page.

(** [b.pdf] is corrupt, the other files load. *)
Definition loader_b_corrupt (path : string) : response (list Document) :=
  if String.eqb path "./pdf/b.pdf" then Fails "invalid pdf header"
  else Returns one_page.

(** [a.pdf] is a scan without text, the other files load. *)
Definition loader_a_blank (path : string) : response (list Document) :=
  if String.eqb path "./pdf/a.pdf" then Returns [] else Returns one_page.

Definition good_embeddings (name : string) : response unit := Returns tt.

Definition no_embeddings (name : string) : response unit :=
  Fails "unknown model identifier".

(** The configuration of a run with [base_env] and no flag. *)
Definition args_default : Namespace :=
  {| model_path := Some model_file; pdf_dir := "./pdf";
     embedding_model := "BAAI/bge-small-en-v1.5"; n_ctx := 4096;
     question := Some "What is the main topic?"; verbose := false |}.

Definition w_three : World :=
  world_with base_env tree_three loader_b_corrupt good_embeddings.

Definition w_blank : World :=
  world_with base_env tree_two loader_a_blank good_embeddings.

Definition w_no_embeddings : World :=
  world_with base_env tree_two good_loader no_embeddings.


Definition w_n_ctx_zero : World :=
  world_with (("N_CTX", "0") :: base_env) tree_one good_loader
    good_embeddings.

Definition w_n_ctx_word : World :=
  world_with (("N_CTX", "abc") :: base_env) tree_one good_loader
    good_embeddings.

Definition w_no_question : World :=
  world_with [("MODEL_PATH", model_file)] tree_one good_loader
    good_embeddings.

End Demo.

(** ** Notions used in the statements *)

(** The result of [parse_args()] at the start of a run. *)
Definition parsed (w : World) : result Namespace := snd (parse_args w []).

(** The five checks of [validate_inputs], all passed. *)
Definition config_ok (w : World) (args : Namespace) : bool :=
  match model_path args with
  | Some p =>
      negb (String.eqb p "") && Os.path_isabs p && exists_at w p
      && isdir_at w (pdf_dir args) && PyStr.truthy (question args)
  | None => false
  end.

(** A configuration the validation must refuse: the model path is absent,
    or not absolute, or names nothing; or the PDF directory does not exist;
    or the question is empty. *)
Definition invalid_config (w : World) (args : Namespace) : Prop :=
  PyStr.truthy (model_path args) = false
  \/ (exists p, model_path args = Some p /\ Os.path_isabs p = false)
  \/ (exists p, model_path args = Some p /\ exists_at w p = false)
  \/ exists_at w (pdf_dir args) = false
  \/ PyStr.truthy (question args) = false.

(** The generation model [main] builds from the configuration. *)
Definition llm_of (args : Namespace) : LlamaCpp :=
  {| llm_model_path := model_path args; llm_n_ctx := n_ctx args;
     llm_verbose := verbose args |}.

(** The load of the generation model succeeds. *)
Definition model_loads (w : World) (args : Namespace) : Prop :=
  w_llama_cpp w [] (llm_of args) = Returns tt.

(** The text [--n-ctx] is read from: the flag, else [N_CTX], else 4096. *)
Definition n_ctx_text (w : World) : string :=
  match cli_n_ctx (w_argv w) with
  | Some s => s
  | None => getenv_default w "N_CTX" "4096"
  end.

(** Library calls, as opposed to lines of output. *)
Definition is_call (e : event) : bool :=
  match e with
  | EPrint _ | EStderr _ => false
  | _ => true
  end.

(** Loads of the generation model. *)
Definition is_llm_load (e : event) : bool :=
  match e with
  | ELlamaCpp _ => true
  | _ => false
  end.


(** The first call made for a document: its extraction. *)
Definition starts_document (e : event) : bool :=
  match e with
  | ELoadAndSplit _ => true
  | _ => false
  end.

(** The calls made while one document is processed. *)
Definition per_document (e : event) : bool :=
  match e with
  | ELoadAndSplit _ | ESplitDocuments _ _ | EHuggingFaceEmbeddings _
  | EFaissFromTexts _ _ | ERetrievalQA _ | EInvoke _ _ => true
  | _ => false
  end.

(** The generation model a call works with, when it has one. *)
Definition uses_llm (llm : LlamaCpp) (e : event) : Prop :=
  match e with
  | ERetrievalQA chain | EInvoke chain _ => qa_llm chain = llm
  | _ => True
  end.

(** A call of the per-document step that works with [llm] if with any. *)
Definition doc_call (llm : LlamaCpp) (e : event) : Prop :=
  per_document e = true /\ uses_llm llm e.

(** The embedding and indexing calls. *)
Definition is_embedding_step (e : event) : bool :=
  match e with
  | EHuggingFaceEmbeddings _ | EFaissFromTexts _ _ => true
  | _ => false
  end.

(** The splitter of a split call is the 500/200 one. *)
Definition split_policy (e : event) : Prop :=
  match e with
  | ESplitDocuments splitter _ =>
      chunk_size splitter = 500%Z /\ chunk_overlap splitter = 200%Z
  | _ => True
  end.

(** The actions of one document: its header, then library calls only, then
    one line, the outcome. *)
Inductive doc_segment (llm : LlamaCpp) (pdf_path : string)
  : list event -> Prop :=
| doc_segment_intro (calls : list event) (line : string) :
    Forall (doc_call llm) calls ->
    Forall split_policy calls ->
    doc_segment llm pdf_path
      (EPrint (header_line pdf_path) :: calls ++ [EPrint line]).

(** The paths the discovery must select: the files below the directory
    whose name ends in [.pdf] whatever the case. *)
Definition pdf_files_under (top : string) (t : Os.dirtree) : list string :=
  map (fun f => Os.path_join (fst f) (snd f))
    (filter (fun f => is_pdf_name (snd f)) (Os.files_under top t)).


Definition path_le (a b : string) : Prop := String.leb a b = true.

(** *** The claims that the script does not satisfy, as they are worded *)

(** "When loading the embedding model fails, no subsequent document is
    processed." *)
Definition embedding_failure_is_fatal (w : World) : Prop :=
  forall pre name post msg,
    fst (run w) = pre ++ EHuggingFaceEmbeddings name :: post ->
    w_embeddings w pre name = Fails msg ->
    Forall (fun e => starts_document e = false) post.


(** "For every run that proceeds past configuration validation into
    document processing, the context-window size used is a positive
    integer." *)
Definition n_ctx_is_positive (w : World) : Prop :=
  forall llm path,
    In (ELlamaCpp llm) (fst (run w)) ->
    In (ELoadAndSplit path) (fst (run w)) ->
    (0 < llm_n_ctx llm)%Z.

(** ** Notions used in the further properties *)

(** The index and the chain the per-document step builds from the texts
    the splitter returned. *)
Definition doc_index (args : Namespace) (texts : list Document) : FAISS :=
  {| faiss_texts := map page_content texts;
     faiss_embedding := {| model_name := embedding_model args |} |}.

Definition doc_chain (args : Namespace) (llm : LlamaCpp)
    (prompt : PromptTemplate) (texts : list Document) : RetrievalQA :=
  {| qa_llm := llm; qa_chain_type := "stuff";
     qa_retriever := {| vectorstore := doc_index args texts |};
     qa_prompt := prompt; qa_verbose := verbose args |}.

(** The calls the per-document step makes for one document when none of
    them fails, in the order of the script: the loader, the splitter on
    its pages, the embedding model, the index over the chunks, the chain
    over the index, and the question put to the chain. *)
Definition doc_calls (args : Namespace) (llm : LlamaCpp)
    (prompt : PromptTemplate) (path : string) (pages texts : list Document)
  : list event :=
  [ELoadAndSplit path;
   ESplitDocuments (RecursiveCharacterTextSplitter 500 200) pages;
   EHuggingFaceEmbeddings (embedding_model args);
   EFaissFromTexts (map page_content texts)
     {| model_name := embedding_model args |};
   ERetrievalQA (doc_chain args llm prompt texts);
   EInvoke (doc_chain args llm prompt texts) (question args)].

(** The line printed for the object the chain returned. *)
Definition answer_line (output : PyObject) : string :=
  match output_result output with
  | Some answer => answer
  | None => obj_str output
  end.

(** The actions of one document, stage by stage: the header, then the
    first [n] calls of [doc_calls], then one line.  The line is the
    failure line when call [n] failed, the skip notice after the two
    extraction calls when there is no chunk, and the answer after all six
    calls. *)
Inductive staged_segment (args : Namespace) (llm : LlamaCpp)
    (prompt : PromptTemplate) (path : string) : list event -> Prop :=
| staged_failed (pages texts : list Document) (n : nat) (msg : string) :
    1 <= n <= 6 ->
    (3 <= n -> map page_content texts <> []) ->
    staged_segment args llm prompt path
      (EPrint (header_line path)
         :: firstn n (doc_calls args llm prompt path pages texts)
         ++ [EPrint (failed_line path msg)])
| staged_skipped (pages texts : list Document) :
    map page_content texts = [] ->
    staged_segment args llm prompt path
      (EPrint (header_line path)
         :: firstn 2 (doc_calls args llm prompt path pages texts)
         ++ [EPrint skip_line])
| staged_answered (pages texts : list Document) (output : PyObject) :
    map page_content texts <> [] ->
    staged_segment args llm prompt path
      (EPrint (header_line path)
         :: doc_calls args llm prompt path pages texts
         ++ [EPrint (answer_line output)]).

(** Calls of [print]. *)
Definition is_print (e : event) : bool :=
  match e with
  | EPrint _ => true
  | _ => false
  end.

(** Loads of the embedding model. *)
Definition is_embeddings_load (e : event) : bool :=
  match e with
  | EHuggingFaceEmbeddings _ => true
  | _ => false
  end.

(** A tree whose entries have names that do not start with a slash, as
    the names returned by [os.scandir] are. *)
Fixpoint plain_names (t : Os.dirtree) : Prop :=
  match t with
  | Os.Dir files subdirs =>
      Forall (fun name => PyStr.startswith name "/" = false) files
      /\ (fix all (l : list (string * Os.dirtree)) : Prop :=
            match l with
            | [] => True
            | d :: r =>
                PyStr.startswith (fst d) "/" = false
                /\ plain_names (snd d) /\ all r
            end) subdirs
  end.

(** More worlds for the evaluation of the further properties. *)
Module Demo2.

(** The world [w] with another command line. *)
Definition with_argv (argv : CommandLine) (w : World) : World :=
  {| w_argv := argv; w_getenv := w_getenv w; w_stat := w_stat w;
     w_llama_cpp := w_llama_cpp w; w_load_and_split := w_load_and_split w;
     w_split_documents := w_split_documents w;
     w_embeddings := w_embeddings w;
     w_faiss_from_texts := w_faiss_from_texts w;
     w_retrieval_qa := w_retrieval_qa w; w_invoke := w_invoke w |}.

(** The world [w] with another file system. *)
Definition with_stat (stat : string -> option Os.node) (w : World) : World :=
  {| w_argv := w_argv w; w_getenv := w_getenv w; w_stat := stat;
     w_llama_cpp := w_llama_cpp w; w_load_and_split := w_load_and_split w;
     w_split_documents := w_split_documents w;
     w_embeddings := w_embeddings w;
     w_faiss_from_texts := w_faiss_from_texts w;
     w_retrieval_qa := w_retrieval_qa w; w_invoke := w_invoke w |}.

(** The world [w] with a generation model that cannot be loaded. *)
Definition without_llm (w : World) : World :=
  {| w_argv := w_argv w; w_getenv := w_getenv w; w_stat := w_stat w;
     w_llama_cpp := fun _ _ => Fails "failed to load model from file";
     w_load_and_split := w_load_and_split w;
     w_split_documents := w_split_documents w;
     w_embeddings := w_embeddings w;
     w_faiss_from_texts := w_faiss_from_texts w;
     w_retrieval_qa := w_retrieval_qa w; w_invoke := w_invoke w |}.

(** The world [w] with a chain that returns [output]. *)
Definition with_output (output : PyObject) (w : World) : World :=
  {| w_argv := w_argv w; w_getenv := w_getenv w; w_stat := w_stat w;
     w_llama_cpp := w_llama_cpp w; w_load_and_split := w_load_and_split w;
     w_split_documents := w_split_documents w;
     w_embeddings := w_embeddings w;
     w_faiss_from_texts := w_faiss_from_texts w;
     w_retrieval_qa := w_retrieval_qa w;
     w_invoke := fun _ _ _ => Returns output |}.

Definition w_no_llm : World := without_llm Demo.w_three.

(** [--n-ctx big] on the command line. *)
Definition w_bad_flag : World :=
  with_argv {| cli_model_path := None; cli_pdf_dir := None;
               cli_embedding_model := None; cli_n_ctx := Some "big";
               cli_question := None; cli_verbose := false |} Demo.w_three.

(** [./pdf] is a regular file. *)
Definition w_pdf_dir_is_file : World :=
  with_stat (Demo.fs_of [(Demo.model_file, Os.NFile); ("./pdf", Os.NFile)])
    Demo.w_three.

(** The model path names a directory. *)
Definition w_model_is_dir : World :=
  with_stat (Demo.fs_of [(Demo.model_file, Os.NDir (Os.Dir [] []));
                         ("./pdf", Os.NDir Demo.tree_one)])
    Demo.w_three.

(** The model path is relative and names nothing. *)
Definition w_relative_model : World :=
  Demo.world_with [("MODEL_PATH", "models/m.gguf")] Demo.tree_one
    Demo.good_loader Demo.good_embeddings.

(** A chain that returns a text, not a dict. *)
Definition plain_output : PyObject :=
  {| obj_str := "Cats."; obj_items := None |}.

(** A chain that returns a dict without the key [result]. *)
Definition dict_without_result : PyObject :=
  {| obj_str := "{'answer': 'Cats.'}";
     obj_items := Some [("answer", "Cats.")] |}.

(** The same files as [Demo.tree_three], listed in another order. *)
Definition tree_three_shuffled : Os.dirtree :=
  Os.Dir ["a.pdf"; "b.pdf"; "notes.txt"] [("sub", Os.Dir ["C.PDF"] [])].

Definition w_three_shuffled : World :=
  Demo.world_with Demo.base_env tree_three_shuffled Demo.loader_b_corrupt
    Demo.good_embeddings.

End Demo2.

(** * Properties *)

(** ** Evaluation of the definitions on small inputs *)

Example int_default : PyStr.int "4096" = Some 4096%Z.
Proof. reflexivity. Qed.

Example int_underscore : PyStr.int " 4_096 " = Some 4096%Z.
Proof. reflexivity. Qed.

Example int_negative : PyStr.int "-12" = Some (-12)%Z.
Proof. reflexivity. Qed.

Example int_rejects_word : PyStr.int "abc" = None.
Proof. reflexivity. Qed.

Example int_rejects_float : PyStr.int "4096.0" = None.
Proof. reflexivity. Qed.

Example int_rejects_empty : PyStr.int "" = None.
Proof. reflexivity. Qed.

Example int_rejects_trailing_underscore : PyStr.int "1_" = None.
Proof. reflexivity. Qed.

Example endswith_pdf : is_pdf_name "Report.PDF" = true.
Proof. reflexivity. Qed.

Example endswith_short : is_pdf_name "pdf" = false.
Proof. reflexivity. Qed.

Example join_plain : Os.path_join "./pdf" "a.pdf" = "./pdf/a.pdf".
Proof. reflexivity. Qed.

Example join_slash : Os.path_join "./pdf/" "a.pdf" = "./pdf/a.pdf".
Proof. reflexivity. Qed.

Example walk_three :
  Os.walk "./pdf" Demo.tree_three
  = [("./pdf", ["sub"], ["b.pdf"; "a.pdf"; "notes.txt"]);
     ("./pdf/sub", [], ["C.PDF"])].
Proof. reflexivity. Qed.

Example discover_three :
  discover Demo.w_three "./pdf"
  = ["./pdf/a.pdf"; "./pdf/b.pdf"; "./pdf/sub/C.PDF"].
Proof. reflexivity. Qed.

(** The end-to-end scenario: an answer for [a.pdf], a failure line for the
    corrupt [b.pdf], and status 0. *)
Example run_two_files :
  map (fun e => match e with EPrint l => l | _ => "" end)
    (filter (fun e => negb (is_call e))
       (fst (run (Demo.world_with Demo.base_env Demo.tree_two
                    Demo.loader_b_corrupt Demo.good_embeddings))))
  = [header_line "./pdf/a.pdf"; "Cats.";
     header_line "./pdf/b.pdf";
     "Failed to process ./pdf/b.pdf: invalid pdf header"]
  /\ exit_status
       (snd (run (Demo.world_with Demo.base_env Demo.tree_two
                    Demo.loader_b_corrupt Demo.good_embeddings))) = 0%Z.
Proof. split; reflexivity. Qed.

(** ** The monad *)

Section MonadFacts.

Context {A B : Type}.

Lemma bind_Ok (m : M A) (f : A -> M B) tr tr' a :
  m tr = (tr', Ok a) -> bind m f tr = f a tr'.
Proof. intros H. unfold bind. now rewrite H. Qed.

Lemma bind_Raise (m : M A) (f : A -> M B) tr tr' e :
  m tr = (tr', Raise e) -> bind m f tr = (tr', Raise e).
Proof. intros H. unfold bind. now rewrite H. Qed.

Lemma call_Returns (ev : event) (answer : trace -> response A) tr a :
  answer tr = Returns a -> call ev answer tr = (tr ++ [ev], Ok a).
Proof. intros H. unfold call. now rewrite H. Qed.

Lemma call_Fails (ev : event) (answer : trace -> response A) tr msg :
  answer tr = Fails msg ->
  call ev answer tr = (tr ++ [ev], Raise (Exception msg)).
Proof. intros H. unfold call. now rewrite H. Qed.

Lemma try_except_caught (body : M A) (handler : string -> M A) tr tr' msg :
  body tr = (tr', Raise (Exception msg)) ->
  try_except_Exception body handler tr = handler msg tr'.
Proof. intros H. unfold try_except_Exception. now rewrite H. Qed.

Lemma try_except_Ok (body : M A) (handler : string -> M A) tr tr' a :
  body tr = (tr', Ok a) ->
  try_except_Exception body handler tr = (tr', Ok a).
Proof. intros H. unfold try_except_Exception. now rewrite H. Qed.

End MonadFacts.

(** ** The per-document step *)

Section PerDocument.

Variable w : World.
Variable question : option string.
Variable llm : LlamaCpp.
Variable embedding_model_name : string.
Variable prompt : PromptTemplate.
Variable verbose : bool.

Let splitter := RecursiveCharacterTextSplitter 500 200.
Let body path :=
  rag_body w path question llm embedding_model_name prompt verbose.
Let step path :=
  run_rag_over_pdf w path question llm embedding_model_name prompt verbose.

(** The extraction calls the loader, then the splitter on what the loader
    returned, and returns the text of each chunk. *)
Lemma extract_eq path tr :
  extract_text_chunks_from_pdf w path tr
  = match w_load_and_split w tr path with
    | Fails msg => (tr ++ [ELoadAndSplit path], Raise (Exception msg))
    | Returns pages =>
        let tr1 := tr ++ [ELoadAndSplit path] in
        (tr1 ++ [ESplitDocuments splitter pages],
         match w_split_documents w tr1 splitter pages with
         | Fails msg => Raise (Exception msg)
         | Returns texts => Ok (map page_content texts)
         end)
    end.
Proof.
  unfold extract_text_chunks_from_pdf, bind, call, ret.
  destruct (w_load_and_split w tr path); [|reflexivity].
  cbn. now destruct (w_split_documents w _ _ a).
Qed.

(** What the body of the [try] appends, and how it ends: with library
    calls only and an exception, or with library calls and one line. *)
Lemma rag_body_shape path tr :
  exists calls,
    Forall (doc_call llm) calls /\ Forall split_policy calls
    /\ ((exists msg,
            body path tr = (tr ++ calls, Raise (Exception msg)))
        \/ (exists line,
               body path tr = (tr ++ calls ++ [EPrint line], Ok tt))).
Proof.
  destruct (body path tr) as [tr' r] eqn:E.
  unfold body, rag_body in E.
  unfold bind at 1 in E. rewrite extract_eq in E.
  destruct (w_load_and_split w tr path) as [pages|msg].
  2:{ injection E as <- <-. exists [ELoadAndSplit path].
      split; [|split]; [| |left; now exists msg]; repeat constructor. }
  cbn zeta in E.
  destruct (w_split_documents w _ splitter pages) as [texts|msg].
  2:{ injection E as <- <-.
      exists [ELoadAndSplit path; ESplitDocuments splitter pages].
      split; [|split];
        [| |left; exists msg; now rewrite <- !app_assoc];
        repeat constructor. }
  destruct (map page_content texts) as [|c cs] eqn:Hc; cbn [is_empty] in E.
  { unfold print in E. injection E as <- <-.
    exists [ELoadAndSplit path; ESplitDocuments splitter pages].
    split; [|split];
      [| |right; exists skip_line; now rewrite <- !app_assoc];
      repeat constructor. }
  unfold bind, call, print in E.
  destruct (w_embeddings w _ embedding_model_name) as [[]|msg].
  2:{ injection E as <- <-.
      exists [ELoadAndSplit path; ESplitDocuments splitter pages;
              EHuggingFaceEmbeddings embedding_model_name].
      split; [|split];
        [| |left; exists msg; now rewrite <- !app_assoc];
        repeat constructor. }
  destruct (w_faiss_from_texts w _ _ _) as [[]|msg].
  2:{ injection E as <- <-.
      eexists [ELoadAndSplit path; ESplitDocuments splitter pages;
               EHuggingFaceEmbeddings embedding_model_name;
               EFaissFromTexts _ _].
      split; [|split];
        [| |left; exists msg; now rewrite <- !app_assoc];
        repeat constructor. }
  destruct (w_retrieval_qa w _ _) as [[]|msg].
  2:{ injection E as <- <-.
      eexists [ELoadAndSplit path; ESplitDocuments splitter pages;
               EHuggingFaceEmbeddings embedding_model_name;
               EFaissFromTexts _ _; ERetrievalQA _].
      split; [|split];
        [| |left; exists msg; now rewrite <- !app_assoc];
        repeat constructor. }
  destruct (w_invoke w _ _ _) as [output|msg].
  2:{ injection E as <- <-.
      eexists [ELoadAndSplit path; ESplitDocuments splitter pages;
               EHuggingFaceEmbeddings embedding_model_name;
               EFaissFromTexts _ _; ERetrievalQA _; EInvoke _ _].
      split; [|split];
        [| |left; exists msg; now rewrite <- !app_assoc];
        repeat constructor. }
  eexists [ELoadAndSplit path; ESplitDocuments splitter pages;
           EHuggingFaceEmbeddings embedding_model_name;
           EFaissFromTexts _ _; ERetrievalQA _; EInvoke _ _].
  split; [|split];
    [| |right;
        destruct (output_result output) as [ans|]; injection E as <- <-;
        eexists; rewrite <- !app_assoc; reflexivity];
    repeat constructor.
Qed.

(** The step prints the header and runs the body. *)
Lemma step_eq path tr :
  step path tr
  = try_except_Exception (body path)
      (fun exc => print (failed_line path exc))
      (tr ++ [EPrint (header_line path)]).
Proof. reflexivity. Qed.

(** The step always returns: its actions are the header, library calls
    and one line. *)
Lemma step_segment path tr :
  exists seg,
    doc_segment llm path seg /\ step path tr = (tr ++ seg, Ok tt).
Proof.
  rewrite step_eq.
  destruct (rag_body_shape path (tr ++ [EPrint (header_line path)]))
    as (calls & Hcalls & Hsplit & [[msg E] | [line E]]).
  - exists (EPrint (header_line path)
              :: calls ++ [EPrint (failed_line path msg)]).
    split; [now constructor|].
    rewrite (try_except_caught _ _ _ _ _ E). unfold print.
    now rewrite <- !app_assoc.
  - exists (EPrint (header_line path) :: calls ++ [EPrint line]).
    split; [now constructor|].
    rewrite (try_except_Ok _ _ _ _ _ E).
    now rewrite <- !app_assoc.
Qed.

Lemma step_returns path tr : snd (step path tr) = Ok tt.
Proof.
  destruct (step_segment path tr) as (seg & _ & E). now rewrite E.
Qed.

(** When the body raises, the step appends the failure line and
    returns. *)
Lemma step_caught path tr tr' msg :
  body path (tr ++ [EPrint (header_line path)])
  = (tr', Raise (Exception msg)) ->
  step path tr = (tr' ++ [EPrint (failed_line path msg)], Ok tt).
Proof.
  intros E. rewrite step_eq. now rewrite (try_except_caught _ _ _ _ _ E).
Qed.


(** The loop over the documents. *)
Let loop := fun paths => for_each paths step.

Lemma loop_cons path rest tr :
  loop (path :: rest) tr = loop rest (fst (step path tr)).
Proof.
  unfold loop. cbn [for_each]. unfold bind.
  pose proof (step_returns path tr) as H.
  destruct (step path tr) as [tr' r]. cbn in H |- *. now subst r.
Qed.

(** The loop runs the step of every path, in order, and returns. *)
Lemma loop_segments paths :
  forall tr,
  exists segs,
    Forall2 (doc_segment llm) paths segs
    /\ loop paths tr = (tr ++ concat segs, Ok tt).
Proof.
  induction paths as [|path rest IH]; intros tr.
  - exists []. split; [constructor|]. cbn. now rewrite app_nil_r.
  - rewrite loop_cons.
    destruct (step_segment path tr) as (seg & Hseg & E). rewrite E. cbn [fst].
    destruct (IH (tr ++ seg)) as (segs & Hsegs & E').
    exists (seg :: segs). split; [now constructor|].
    rewrite E'. cbn [concat]. now rewrite app_assoc.
Qed.

(** The first call of the body is the extraction of its document. *)
Lemma rag_body_first_call path tr :
  exists calls,
    fst (body path tr) = tr ++ ELoadAndSplit path :: calls.
Proof.
  destruct (body path tr) as [tr' r] eqn:E. cbn [fst].
  unfold body, rag_body in E.
  unfold bind at 1 in E. rewrite extract_eq in E.
  destruct (w_load_and_split w tr path) as [pages|msg].
  2:{ injection E as <- _. now exists []. }
  cbn zeta in E.
  destruct (w_split_documents w _ splitter pages) as [texts|msg].
  2:{ injection E as <- _. eexists. now rewrite <- !app_assoc. }
  destruct (map page_content texts) as [|c cs]; cbn [is_empty] in E.
  { unfold print in E. injection E as <- _. eexists.
    now rewrite <- !app_assoc. }
  unfold bind, call, print in E.
  destruct (w_embeddings w _ embedding_model_name) as [[]|msg].
  2:{ injection E as <- _. eexists. now rewrite <- !app_assoc. }
  destruct (w_faiss_from_texts w _ _ _) as [[]|msg].
  2:{ injection E as <- _. eexists. now rewrite <- !app_assoc. }
  destruct (w_retrieval_qa w _ _) as [[]|msg].
  2:{ injection E as <- _. eexists. now rewrite <- !app_assoc. }
  destruct (w_invoke w _ _ _) as [output|msg].
  2:{ injection E as <- _. eexists. now rewrite <- !app_assoc. }
  destruct (output_result output); injection E as <- _; eexists;
    now rewrite <- !app_assoc.
Qed.

(** The step of a document starts with its header and its extraction. *)
Lemma step_first_call path tr :
  exists evs,
    fst (step path tr)
    = tr ++ EPrint (header_line path) :: ELoadAndSplit path :: evs.
Proof.
  rewrite step_eq. unfold try_except_Exception.
  destruct (rag_body_first_call path (tr ++ [EPrint (header_line path)]))
    as (calls & E).
  destruct (body path (tr ++ [EPrint (header_line path)])) as [tr' r].
  cbn [fst] in E. subst tr'.
  destruct r as [[]|[msg|code]]; cbn [fst]; unfold print; cbn [fst];
    eexists; rewrite <- !app_assoc; reflexivity.
Qed.

(** The loop starts with the step of its first document. *)
Lemma loop_first_call path rest tr :
  exists evs,
    fst (loop (path :: rest) tr)
    = tr ++ EPrint (header_line path) :: ELoadAndSplit path :: evs.
Proof.
  rewrite loop_cons.
  destruct (step_first_call path tr) as (evs & E). rewrite E.
  destruct (loop_segments rest
              (tr ++ EPrint (header_line path) :: ELoadAndSplit path :: evs))
    as (segs & _ & E').
  rewrite E'. cbn [fst]. eexists. rewrite <- app_assoc. reflexivity.
Qed.

End PerDocument.

(** ** The start of a run: parsing, validation, model load *)

Section Startup.

Variable w : World.

(** The three ways [parse_args] ends.  It adds nothing to the trace
    unless [argparse] refuses the [--n-ctx] flag. *)
Lemma parse_args_eq tr :
  parse_args w tr
  = match PyStr.int (getenv_default w "N_CTX" "4096") with
    | None =>
        (tr, Raise (Exception
                      ("invalid literal for int() with base 10: "
                         ++ PyStr.repr (getenv_default w "N_CTX" "4096"))))
    | Some _ =>
        match PyStr.int (n_ctx_text w) with
        | Some n =>
            (tr, Ok {| model_path :=
                         match cli_model_path (w_argv w) with
                         | Some p => Some p
                         | None => w_getenv w "MODEL_PATH"
                         end;
                       pdf_dir :=
                         or_default (cli_pdf_dir (w_argv w))
                           (getenv_default w "PDF_DIR" "./pdf");
                       embedding_model :=
                         or_default (cli_embedding_model (w_argv w))
                           (getenv_default w "EMBEDDING_MODEL"
                              "BAAI/bge-small-en-v1.5");
                       n_ctx := n;
                       question :=
                         match cli_question (w_argv w) with
                         | Some q => Some q
                         | None => w_getenv w "QUESTION"
                         end;
                       verbose := cli_verbose (w_argv w) |})
        | None =>
            (tr ++ [EStderr ("error: argument --n-ctx: invalid int value: "
                               ++ PyStr.repr (n_ctx_text w))],
             Raise (SystemExit 2))
        end
    end.
Proof.
  unfold parse_args, n_ctx_text, int_or_ValueError, argparse_int.
  unfold bind at 1.
  destruct (PyStr.int (getenv_default w "N_CTX" "4096")) as [d|] eqn:Hd;
    [|reflexivity].
  cbn [ret]. unfold bind at 1.
  destruct (cli_n_ctx (w_argv w)) as [s|].
  - destruct (PyStr.int s) as [n|]; reflexivity.
  - cbn [ret]. now rewrite Hd.
Qed.

Lemma parsed_Ok args :
  parsed w = Ok args -> forall tr, parse_args w tr = (tr, Ok args).
Proof.
  unfold parsed. rewrite parse_args_eq. intros H tr. rewrite parse_args_eq.
  destruct (PyStr.int (getenv_default w "N_CTX" "4096")); [|discriminate].
  destruct (PyStr.int (n_ctx_text w)); [|discriminate].
  cbn in H. now injection H as <-.
Qed.

Lemma parsed_n_ctx args :
  parsed w = Ok args -> PyStr.int (n_ctx_text w) = Some (n_ctx args).
Proof.
  unfold parsed. rewrite parse_args_eq.
  destruct (PyStr.int (getenv_default w "N_CTX" "4096")); [|discriminate].
  destruct (PyStr.int (n_ctx_text w)); [|discriminate].
  cbn. now intros [= <-].
Qed.

(** A parse that fails makes no library call and prints nothing on the
    standard output. *)
Lemma parsed_Raise e :
  parsed w = Raise e ->
  exists tr,
    parse_args w [] = (tr, Raise e)
    /\ Forall (fun ev => match ev with EStderr _ => True | _ => False end) tr.
Proof.
  unfold parsed. rewrite parse_args_eq.
  destruct (PyStr.int (getenv_default w "N_CTX" "4096")).
  - destruct (PyStr.int (n_ctx_text w)); [discriminate|].
    cbn. intros [= <-]. eexists. split; [reflexivity|].
    now repeat constructor.
  - cbn. intros [= <-]. eexists. split; [reflexivity|]. constructor.
Qed.

Variable args : Namespace.

Let validate :=
  validate_inputs w (model_path args) (pdf_dir args) (question args).

Lemma validate_ok tr :
  config_ok w args = true -> validate tr = (tr, Ok tt).
Proof.
  unfold config_ok, validate, validate_inputs.
  destruct (model_path args) as [p|]; [|discriminate].
  intros H. repeat (apply andb_prop in H; destruct H as [H ?]).
  unfold bind, when, os_path_isabs, os_path_exists, ret. cbn [PyStr.truthy].
  now rewrite H, H0, H1, H2, H3.
Qed.

(** A refused configuration: one line that starts with [ERROR:], then
    [sys.exit(2)]. *)
Lemma validate_refuses tr :
  config_ok w args = false ->
  exists msg,
    PyStr.startswith msg "ERROR:" = true
    /\ validate tr = (tr ++ [EPrint msg], Raise (SystemExit 2)).
Proof.
  unfold config_ok, validate, validate_inputs.
  unfold bind, when, os_path_isabs, os_path_exists, ret, print, sys_exit,
    raise.
  destruct (model_path args) as [p|]; cbn [PyStr.truthy negb].
  2:{ intros _. eexists. split; [|reflexivity]. reflexivity. }
  destruct (String.eqb p ""); cbn [negb andb].
  { intros _. eexists. split; [|reflexivity]. reflexivity. }
  destruct (Os.path_isabs p); cbn [negb andb].
  2:{ intros _. eexists. split; [|reflexivity]. reflexivity. }
  destruct (exists_at w p); cbn [negb andb].
  2:{ intros _. eexists. split; [|reflexivity]. reflexivity. }
  destruct (isdir_at w (pdf_dir args)); cbn [negb andb].
  2:{ intros _. eexists. split; [|reflexivity]. reflexivity. }
  intros ->. cbn [negb].
  eexists. split; [|reflexivity]. reflexivity.
Qed.

Lemma invalid_config_refused :
  invalid_config w args -> config_ok w args = false.
Proof.
  unfold invalid_config, config_ok, PyStr.truthy.
  intros [H | [(p & -> & H) | [(p & -> & H) | [H | H]]]].
  - destruct (model_path args) as [p|]; [|reflexivity].
    now rewrite H.
  - rewrite H. now rewrite andb_false_r.
  - rewrite H. now rewrite andb_false_r.
  - assert (isdir_at w (pdf_dir args) = false) as ->.
    { unfold exists_at, isdir_at in *.
      now destruct (w_stat w (pdf_dir args)). }
    destruct (model_path args); [|reflexivity].
    now rewrite andb_false_r.
  - destruct (model_path args); [|reflexivity].
    unfold PyStr.truthy. rewrite H. now rewrite andb_false_r.
Qed.

Hypothesis Hparsed : parsed w = Ok args.

Lemma run_refused :
  config_ok w args = false ->
  exists msg,
    PyStr.startswith msg "ERROR:" = true
    /\ run w = ([EPrint msg], Raise (SystemExit 2)).
Proof.
  intros H. destruct (validate_refuses [] H) as (msg & Hmsg & E).
  exists msg. split; [exact Hmsg|].
  unfold run, main.
  rewrite (bind_Ok _ _ _ _ _ (parsed_Ok args Hparsed [])).
  now rewrite (bind_Raise _ _ _ _ _ E).
Qed.

Hypothesis Hok : config_ok w args = true.

Lemma run_load_fails msg :
  w_llama_cpp w [] (llm_of args) = Fails msg ->
  run w = ([ELlamaCpp (llm_of args)], Raise (Exception msg)).
Proof.
  intros H. unfold run, main.
  rewrite (bind_Ok _ _ _ _ _ (parsed_Ok args Hparsed [])).
  rewrite (bind_Ok _ _ _ _ _ (validate_ok [] Hok)).
  unfold build_llm. unfold bind, call. fold (llm_of args). now rewrite H.
Qed.

Hypothesis Hloads : model_loads w args.

(** After a good start the trace holds the model load only, and the run
    goes on with the discovery. *)
Lemma run_started :
  run w
  = let paths := discover w (pdf_dir args) in
    if is_empty paths then
      ([ELlamaCpp (llm_of args);
        EPrint (no_pdfs_line (pdf_dir args))], Raise (SystemExit 0))
    else
      process_all w args (llm_of args) build_prompt paths
        [ELlamaCpp (llm_of args)].
Proof.
  unfold run, main.
  rewrite (bind_Ok _ _ _ _ _ (parsed_Ok args Hparsed [])).
  rewrite (bind_Ok _ _ _ _ _ (validate_ok [] Hok)).
  unfold build_llm. unfold bind at 1. unfold bind at 1. unfold call.
  fold (llm_of args). rewrite Hloads. cbn [ret app].
  cbn zeta. unfold bind, when.
  destruct (discover w (pdf_dir args)) as [|p ps]; reflexivity.
Qed.

(** The whole trace after a good start: the model load, one segment per
    discovered path in order, and the notice when there is no path. *)
Lemma run_started_segments :
  exists segs,
    Forall2 (doc_segment (llm_of args)) (discover w (pdf_dir args)) segs
    /\ fst (run w)
       = ELlamaCpp (llm_of args) :: concat segs
           ++ (if is_empty (discover w (pdf_dir args))
               then [EPrint (no_pdfs_line (pdf_dir args))] else [])
    /\ exit_status (snd (run w)) = 0%Z.
Proof.
  rewrite run_started. cbn zeta.
  destruct (discover w (pdf_dir args)) as [|p ps] eqn:Hd; cbn [is_empty].
  - exists []. repeat split. constructor.
  - destruct (loop_segments w (question args) (llm_of args)
                (embedding_model args) build_prompt (verbose args)
                (p :: ps) [ELlamaCpp (llm_of args)]) as (segs & Hsegs & E).
    exists segs. unfold process_all. rewrite E. cbn [fst snd app].
    rewrite app_nil_r. now repeat split.
Qed.

End Startup.

(** ** Discovery: the walk and the sort *)

Section Sorting.

Lemma insert_sorted_perm x l : Permutation (insert_sorted x l) (x :: l).
Proof.
  induction l as [|y r IH]; cbn.
  - reflexivity.
  - destruct (String.leb x y); [reflexivity|].
    rewrite IH. apply perm_swap.
Qed.

Lemma list_sort_perm l : Permutation (list_sort l) l.
Proof.
  induction l as [|x r IH]; cbn.
  - reflexivity.
  - rewrite insert_sorted_perm. now constructor.
Qed.

Lemma insert_sorted_head x y l :
  path_le y x -> HdRel path_le y l -> HdRel path_le y (insert_sorted x l).
Proof.
  intros Hyx Hl. destruct l as [|z r]; cbn.
  - now constructor.
  - destruct (String.leb x z); constructor; [exact Hyx|].
    now inversion Hl.
Qed.

Lemma insert_sorted_Sorted x l :
  Sorted path_le l -> Sorted path_le (insert_sorted x l).
Proof.
  induction 1 as [|y r Hr IH Hy]; cbn.
  - repeat constructor.
  - destruct (String.leb x y) eqn:Hxy.
    + constructor; [now constructor|]. now constructor.
    + constructor; [exact IH|].
      apply insert_sorted_head; [|exact Hy].
      destruct (String.leb_total x y) as [H|H]; [congruence|exact H].
Qed.

Lemma list_sort_Sorted l : Sorted path_le (list_sort l).
Proof.
  induction l as [|x r IH]; cbn.
  - constructor.
  - now apply insert_sorted_Sorted.
Qed.

End Sorting.

Section Walk.

(** Induction on a tree with the sub-directories as hypotheses. *)
Lemma dirtree_nested_ind (P : Os.dirtree -> Prop) :
  (forall files subdirs,
      Forall (fun d => P (snd d)) subdirs -> P (Os.Dir files subdirs)) ->
  forall t, P t.
Proof.
  intros H. fix IH 1. intros [files subdirs]. apply H.
  induction subdirs as [|[name t] r IHr]; constructor.
  - apply IH.
  - exact IHr.
Qed.

Lemma pdf_here top files :
  map (fun f => Os.path_join (fst f) (snd f))
    (filter (fun f => is_pdf_name (snd f)) (map (pair top) files))
  = map (Os.path_join top) (filter is_pdf_name files).
Proof.
  induction files as [|name r IH]; cbn; [reflexivity|].
  destruct (is_pdf_name name); cbn; now rewrite IH.
Qed.

(** What the two loops of [main] collect from the walk is the list of
    the files below the directory whose name ends in [.pdf]. *)
Lemma collect_walk t :
  forall top, collect_pdf_paths (Os.walk top t) = pdf_files_under top t.
Proof.
  induction t as [files subdirs IH] using dirtree_nested_ind. intros top.
  unfold pdf_files_under. cbn [Os.walk Os.files_under].
  rewrite filter_app, map_app, pdf_here.
  unfold collect_pdf_paths. cbn [flat_map]. f_equal.
  induction IH as [|[name sub] r Hsub _ IHr]; cbn [flat_map fst snd].
  - reflexivity.
  - rewrite flat_map_app, filter_app, map_app. f_equal.
    + apply Hsub.
    + exact IHr.
Qed.

Lemma discover_eq w top t :
  w_stat w top = Some (Os.NDir t) ->
  discover w top = list_sort (pdf_files_under top t).
Proof.
  intros H. unfold discover, os_walk. rewrite H. now rewrite collect_walk.
Qed.

End Walk.

(** ** The shape of a whole run *)

Section WholeRun.

Variable w : World.

(** A segment holds no load of the generation model, its chain calls
    work with [llm], and its split calls follow the policy. *)
Lemma doc_segment_events llm path seg :
  doc_segment llm path seg ->
  Forall (fun ev => is_llm_load ev = false /\ uses_llm llm ev
                    /\ split_policy ev) seg.
Proof.
  intros [calls line Hcalls Hsplit].
  constructor; [now repeat split|].
  apply Forall_app. split; [|now repeat constructor].
  rewrite Forall_forall in *. intros ev Hev.
  destruct (Hcalls ev Hev) as [Hdoc Huse].
  repeat split; [now destruct ev | exact Huse | now apply Hsplit].
Qed.

Lemma doc_segments_events llm paths segs :
  Forall2 (doc_segment llm) paths segs ->
  Forall (fun ev => is_llm_load ev = false /\ uses_llm llm ev
                    /\ split_policy ev) (concat segs).
Proof.
  induction 1 as [|path seg paths segs Hseg _ IH]; cbn [concat].
  - constructor.
  - apply Forall_app. split; [|exact IH].
    now apply doc_segment_events with path.
Qed.

(** The three ways a run goes: it stops before any library call; or the
    load of the generation model fails; or the model is loaded and every
    later action belongs to the loop over the documents. *)
Lemma run_cases :
  (Forall (fun ev => is_call ev = false) (fst (run w)))
  \/ (exists args,
         parsed w = Ok args /\ config_ok w args = true
         /\ fst (run w) = [ELlamaCpp (llm_of args)])
  \/ (exists args rest,
         parsed w = Ok args /\ config_ok w args = true
         /\ model_loads w args
         /\ fst (run w) = ELlamaCpp (llm_of args) :: rest
         /\ Forall (fun ev => is_llm_load ev = false
                              /\ uses_llm (llm_of args) ev
                              /\ split_policy ev) rest).
Proof.
  destruct (parsed w) as [args|e] eqn:Hp.
  2:{ left. destruct (parsed_Raise w e Hp) as (tr & E & Htr).
      unfold run, main. rewrite (bind_Raise _ _ _ _ _ E). cbn [fst].
      eapply Forall_impl; [|exact Htr]. intros ev. now destruct ev. }
  destruct (config_ok w args) eqn:Hok.
  2:{ left. destruct (run_refused w args Hp Hok) as (msg & _ & E).
      rewrite E. now repeat constructor. }
  destruct (w_llama_cpp w [] (llm_of args)) as [[]|msg] eqn:Hl.
  2:{ right. left. exists args. repeat split; try assumption.
      now rewrite (run_load_fails w args Hp Hok msg Hl). }
  right. right.
  destruct (run_started_segments w args Hp Hok Hl) as (segs & Hsegs & E & _).
  exists args. eexists. repeat split; try assumption.
  - exact E.
  - apply Forall_app. split.
    + now apply doc_segments_events with (discover w (pdf_dir args)).
    + destruct (is_empty _); now repeat constructor.
Qed.

(** A run that makes a per-document call loaded the generation model
    first, and once. *)
Lemma run_document_call pre e post :
  fst (run w) = pre ++ e :: post ->
  per_document e = true ->
  exists args pre',
    parsed w = Ok args /\ model_loads w args
    /\ pre = ELlamaCpp (llm_of args) :: pre'
    /\ Forall (fun ev => is_llm_load ev = false) (pre' ++ e :: post)
    /\ Forall (uses_llm (llm_of args)) (fst (run w)).
Proof.
  intros E He.
  destruct run_cases as [H | [(args & _ & _ & E') | (args & rest & Hp & _ & Hl & E' & H)]].
  - rewrite E in H. apply Forall_app in H as [_ H].
    inversion H as [|? ? Hc _]. now destruct e.
  - rewrite E' in E. destruct pre as [|x [|y pre]]; try discriminate.
    injection E as <- _. discriminate.
  - rewrite E' in E. destruct pre as [|x pre'].
    + cbn in E. injection E as <- _. discriminate.
    + cbn in E. injection E as <- ->.
      exists args, pre'. repeat split; try assumption.
      * eapply Forall_impl; [|exact H]. now intros ev (Hn & _).
      * rewrite E'. constructor; [exact I|].
        rewrite Forall_forall in *. intros ev Hev. now apply H.
Qed.

Lemma run_loads_at_most_once :
  length (filter is_llm_load (fst (run w))) <= 1.
Proof.
  assert (Hnone : forall l, Forall (fun ev => is_llm_load ev = false) l ->
                            filter is_llm_load l = []).
  { induction 1 as [|ev l Hev _ IH]; cbn; [reflexivity|].
    now rewrite Hev. }
  destruct run_cases as [H | [(args & _ & _ & E) | (args & rest & _ & _ & _ & E & H)]].
  - rewrite Hnone; [cbn; lia|].
    eapply Forall_impl; [|exact H]. intros ev. now destruct ev.
  - rewrite E. cbn. lia.
  - rewrite E. cbn [filter is_llm_load]. rewrite Hnone; [cbn; lia|].
    eapply Forall_impl; [|exact H]. now intros ev (Hn & _).
Qed.

End WholeRun.

(** ** Per-document failure isolation *)



(** ** Documents without text *)

(** C7.  Empty-extraction skip.  When the extraction of a document returns
    no chunk, the per-document step prints the notice
    [No text extracted; skipping.] and returns without an exception; what
    it did for the file is the header, the two extraction calls and the
    notice, so neither the embedding model nor the index is called; and
    the loop goes on with the next files. *)
Theorem empty_extraction_skips
    (w : World) (args : Namespace) (llm : LlamaCpp) (prompt : PromptTemplate)
    (path : string) (rest : list string) (tr tr' : trace) :
  extract_text_chunks_from_pdf w path (tr ++ [EPrint (header_line path)])
  = (tr', Ok []) ->
  let after := tr' ++ [EPrint "No text extracted; skipping."] in
  run_rag_over_pdf w path (question args) llm (embedding_model args) prompt
    (verbose args) tr = (after, Ok tt)
  /\ (exists pages,
         after = tr ++ [EPrint (header_line path); ELoadAndSplit path;
                        ESplitDocuments
                          (RecursiveCharacterTextSplitter 500 200) pages;
                        EPrint "No text extracted; skipping."])
  /\ (exists seg,
         after = tr ++ seg
         /\ Forall (fun ev => is_embedding_step ev = false) seg)
  /\ process_all w args llm prompt (path :: rest) tr
     = process_all w args llm prompt rest after.
Proof.
  intros E after.
  assert (Hstep : run_rag_over_pdf w path (question args) llm
                    (embedding_model args) prompt (verbose args) tr
                  = (after, Ok tt)).
  { unfold run_rag_over_pdf. unfold bind at 1. unfold print at 1.
    unfold try_except_Exception, rag_body. unfold bind at 1.
    now rewrite E. }
  assert (Hshape : exists pages,
             after = tr ++ [EPrint (header_line path); ELoadAndSplit path;
                            ESplitDocuments
                              (RecursiveCharacterTextSplitter 500 200) pages;
                            EPrint "No text extracted; skipping."]).
  { rewrite extract_eq in E.
    destruct (w_load_and_split w _ path) as [pages|m]; [|discriminate].
    cbn zeta in E. injection E as <- _. exists pages. subst after.
    now rewrite <- !app_assoc. }
  split; [exact Hstep|]. split; [exact Hshape|]. split.
  - destruct Hshape as (pages & ->). eexists. split; [reflexivity|].
    now repeat constructor.
  - unfold process_all. rewrite loop_cons. now rewrite Hstep.
Qed.

Lemma empty_extraction_skips_witness :
  extract_text_chunks_from_pdf Demo.w_blank "./pdf/a.pdf"
    ([] ++ [EPrint (header_line "./pdf/a.pdf")])
  = ([EPrint (header_line "./pdf/a.pdf"); ELoadAndSplit "./pdf/a.pdf";
      ESplitDocuments (RecursiveCharacterTextSplitter 500 200) []], Ok [])
  /\ run_rag_over_pdf Demo.w_blank "./pdf/a.pdf"
       (question Demo.args_default) (llm_of Demo.args_default)
       (embedding_model Demo.args_default) build_prompt
       (verbose Demo.args_default) []
     = ([EPrint (header_line "./pdf/a.pdf"); ELoadAndSplit "./pdf/a.pdf";
         ESplitDocuments (RecursiveCharacterTextSplitter 500 200) [];
         EPrint "No text extracted; skipping."], Ok tt).
Proof.
  assert (E : extract_text_chunks_from_pdf Demo.w_blank "./pdf/a.pdf"
                ([] ++ [EPrint (header_line "./pdf/a.pdf")])
              = ([EPrint (header_line "./pdf/a.pdf");
                  ELoadAndSplit "./pdf/a.pdf";
                  ESplitDocuments (RecursiveCharacterTextSplitter 500 200) []],
                 Ok [])) by reflexivity.
  split; [exact E|].
  exact (proj1 (empty_extraction_skips Demo.w_blank Demo.args_default
                  (llm_of Demo.args_default) build_prompt "./pdf/a.pdf"
                  ["./pdf/b.pdf"] [] _ E)).
Defined.

(** ** A failing load of the embedding model *)

(** C2, as worded, fails: with two files and an embedding model that
    cannot be loaded, the second file is still processed after the load
    failed for the first. *)
Lemma embedding_failure_not_fatal :
  ~ embedding_failure_is_fatal Demo.w_no_embeddings.
Proof.
  intros H.
  specialize (H [ELlamaCpp (llm_of Demo.args_default);
                 EPrint (header_line "./pdf/a.pdf");
                 ELoadAndSplit "./pdf/a.pdf";
                 ESplitDocuments (RecursiveCharacterTextSplitter 500 200)
                   Demo.one_page]
                "BAAI/bge-small-en-v1.5"
                [EPrint (failed_line "./pdf/a.pdf" "unknown model identifier");
                 EPrint (header_line "./pdf/b.pdf");
                 ELoadAndSplit "./pdf/b.pdf";
                 ESplitDocuments (RecursiveCharacterTextSplitter 500 200)
                   Demo.one_page;
                 EHuggingFaceEmbeddings "BAAI/bge-small-en-v1.5";
                 EPrint (failed_line "./pdf/b.pdf" "unknown model identifier")]
                "unknown model identifier" eq_refl eq_refl).
  do 2 apply Forall_inv_tail in H. apply Forall_inv in H. discriminate H.
Qed.

(** C2, amended.  The embedding model is loaded inside the per-document
    step, so a failing load is a failure of that one document and not of
    the run: the step catches it, prints the line
    [Failed to process <path>: <error>] of the file and returns; the loop
    goes on and returns; the next file, when there is one, gets its
    header and its extraction right after; and the exit status of the
    run is 0. *)
Theorem embedding_failure_is_per_document
    (w : World) (args : Namespace) (llm : LlamaCpp) (prompt : PromptTemplate)
    (path : string) (rest : list string) (tr tr' : trace)
    (chunk : string) (chunks : list string) (msg : string) :
  parsed w = Ok args ->
  config_ok w args = true ->
  model_loads w args ->
  extract_text_chunks_from_pdf w path (tr ++ [EPrint (header_line path)])
  = (tr', Ok (chunk :: chunks)) ->
  w_embeddings w tr' (embedding_model args) = Fails msg ->
  let after :=
    tr' ++ [EHuggingFaceEmbeddings (embedding_model args);
            EPrint ("Failed to process " ++ path ++ ": " ++ msg)] in
  run_rag_over_pdf w path (question args) llm (embedding_model args) prompt
    (verbose args) tr = (after, Ok tt)
  /\ process_all w args llm prompt (path :: rest) tr
     = process_all w args llm prompt rest after
  /\ snd (process_all w args llm prompt (path :: rest) tr) = Ok tt
  /\ (forall next rest',
         rest = next :: rest' ->
         exists evs,
           fst (process_all w args llm prompt (path :: rest) tr)
           = after ++ EPrint (header_line next) :: ELoadAndSplit next :: evs)
  /\ exit_status (snd (run w)) = 0%Z.
Proof.
  intros Hp Hok Hl E Hfail after.
  assert (Hbody : rag_body w path (question args) llm (embedding_model args)
                    prompt (verbose args) (tr ++ [EPrint (header_line path)])
                  = (tr' ++ [EHuggingFaceEmbeddings (embedding_model args)],
                     Raise (Exception msg))).
  { unfold rag_body. unfold bind at 1. rewrite E. cbn [is_empty].
    unfold bind at 1. unfold call at 1. now rewrite Hfail. }
  assert (Hstep : run_rag_over_pdf w path (question args) llm
                    (embedding_model args) prompt (verbose args) tr
                  = (after, Ok tt)).
  { rewrite (step_caught _ _ _ _ _ _ _ _ _ _ Hbody). subst after.
    now rewrite <- app_assoc. }
  assert (Hloop : process_all w args llm prompt (path :: rest) tr
                  = process_all w args llm prompt rest after).
  { unfold process_all. rewrite loop_cons. now rewrite Hstep. }
  split; [exact Hstep|]. split; [exact Hloop|]. split; [|split].
  - unfold process_all.
    destruct (loop_segments w (question args) llm (embedding_model args)
                prompt (verbose args) (path :: rest) tr) as (segs & _ & E').
    now rewrite E'.
  - intros next rest' ->. rewrite Hloop. unfold process_all.
    apply loop_first_call.
  - now destruct (run_started_segments w args Hp Hok Hl) as (_ & _ & _ & H).
Qed.

Lemma embedding_failure_is_per_document_witness :
  run_rag_over_pdf Demo.w_no_embeddings "./pdf/a.pdf"
    (question Demo.args_default) (llm_of Demo.args_default)
    (embedding_model Demo.args_default) build_prompt
    (verbose Demo.args_default) []
  = ([EPrint (header_line "./pdf/a.pdf"); ELoadAndSplit "./pdf/a.pdf";
      ESplitDocuments (RecursiveCharacterTextSplitter 500 200) Demo.one_page;
      EHuggingFaceEmbeddings "BAAI/bge-small-en-v1.5";
      EPrint "Failed to process ./pdf/a.pdf: unknown model identifier"],
     Ok tt)
  /\ (exists evs,
         fst (process_all Demo.w_no_embeddings Demo.args_default
                (llm_of Demo.args_default) build_prompt
                ["./pdf/a.pdf"; "./pdf/b.pdf"] [])
         = [EPrint (header_line "./pdf/a.pdf"); ELoadAndSplit "./pdf/a.pdf";
            ESplitDocuments (RecursiveCharacterTextSplitter 500 200)
              Demo.one_page;
            EHuggingFaceEmbeddings "BAAI/bge-small-en-v1.5";
            EPrint "Failed to process ./pdf/a.pdf: unknown model identifier"]
           ++ EPrint (header_line "./pdf/b.pdf")
           :: ELoadAndSplit "./pdf/b.pdf" :: evs)
  /\ exit_status (snd (run Demo.w_no_embeddings)) = 0%Z.
Proof.
  assert (E : extract_text_chunks_from_pdf Demo.w_no_embeddings "./pdf/a.pdf"
                ([] ++ [EPrint (header_line "./pdf/a.pdf")])
              = ([EPrint (header_line "./pdf/a.pdf");
                  ELoadAndSplit "./pdf/a.pdf";
                  ESplitDocuments (RecursiveCharacterTextSplitter 500 200)
                    Demo.one_page],
                 Ok ["Cats are small carnivorous mammals."])) by reflexivity.
  assert (Hfail : w_embeddings Demo.w_no_embeddings
                    [EPrint (header_line "./pdf/a.pdf");
                     ELoadAndSplit "./pdf/a.pdf";
                     ESplitDocuments (RecursiveCharacterTextSplitter 500 200)
                       Demo.one_page]
                    (embedding_model Demo.args_default)
                  = Fails "unknown model identifier") by reflexivity.
  destruct (embedding_failure_is_per_document Demo.w_no_embeddings
              Demo.args_default (llm_of Demo.args_default) build_prompt
              "./pdf/a.pdf" ["./pdf/b.pdf"] [] _ _ _ _
              eq_refl eq_refl eq_refl E Hfail)
    as (Hstep & _ & _ & Hnext & Hexit).
  split; [exact Hstep|]. split; [|exact Hexit].
  exact (Hnext "./pdf/b.pdf" [] eq_refl).
Defined.

(** ** A directory without PDF *)





(** ** Validation of the configuration *)

(** C4.  Configuration validation fails fast.  For every configuration
    returned by the parser in which the model path is absent, or is not
    absolute, or names nothing on disk, or the PDF directory does not
    exist, or the question is empty: the whole run is one printed line
    that starts with [ERROR:], followed by [sys.exit(2)].  The trace
    holds nothing else, so no model is loaded and no document is
    processed. *)
Theorem validation_fails_fast (w : World) (args : Namespace) :
  parsed w = Ok args ->
  invalid_config w args ->
  exists msg,
    PyStr.startswith msg "ERROR:" = true
    /\ run w = ([EPrint msg], Raise (SystemExit 2))
    /\ exit_status (snd (run w)) = 2%Z.
Proof.
  intros Hp Hbad.
  destruct (run_refused w args Hp (invalid_config_refused w args Hbad))
    as (msg & Hmsg & E).
  exists msg. split; [exact Hmsg|]. split; [exact E|]. now rewrite E.
Qed.

Lemma validation_fails_fast_witness :
  exists msg,
    PyStr.startswith msg "ERROR:" = true
    /\ run Demo.w_no_question = ([EPrint msg], Raise (SystemExit 2))
    /\ exit_status (snd (run Demo.w_no_question)) = 2%Z.
Proof.
  apply (validation_fails_fast Demo.w_no_question
           {| model_path := Some Demo.model_file; pdf_dir := "./pdf";
              embedding_model := "BAAI/bge-small-en-v1.5"; n_ctx := 4096;
              question := None; verbose := false |}).
  - reflexivity.
  - unfold invalid_config. do 4 right. reflexivity.
Defined.

(** ** Discovery *)

(** Every segment starts with the header of its file. *)
Lemma doc_segments_headers llm paths segs :
  Forall2 (doc_segment llm) paths segs ->
  Forall2
    (fun path seg =>
       exists calls line,
         seg = EPrint (String "010" ("Processing File: " ++ path))
                 :: calls ++ [EPrint line]
         /\ Forall (fun ev => is_call ev = true) calls)
    paths segs.
Proof.
  induction 1 as [|path seg ps ss Hseg _ IH]; constructor; [|exact IH].
  destruct Hseg as [calls line Hcalls _]. exists calls, line.
  split; [reflexivity|].
  eapply Forall_impl; [|exact Hcalls]. intros ev [Hev _]. now destruct ev.
Qed.

(** C5.  Document discovery.  In a run that reached the discovery, the
    paths selected are the files of the directory and of all its
    sub-directories whose name ends in [.pdf] whatever the case, each as
    many times as it is there; they are in the sorted order of paths; and
    after the model load the trace is one segment per selected path, in
    that order, each starting with the printed header, a line feed
    followed by [Processing File: <path>], and holding besides it only
    library calls and one line of outcome. *)
Theorem discovery_sorted_headers
    (w : World) (args : Namespace) (t : Os.dirtree) :
  parsed w = Ok args ->
  config_ok w args = true ->
  model_loads w args ->
  w_stat w (pdf_dir args) = Some (Os.NDir t) ->
  let paths := discover w (pdf_dir args) in
  Permutation paths (pdf_files_under (pdf_dir args) t)
  /\ (forall path,
         In path paths
         <-> exists dir name,
               In (dir, name) (Os.files_under (pdf_dir args) t)
               /\ is_pdf_name name = true
               /\ path = Os.path_join dir name)
  /\ Sorted path_le paths
  /\ exists segs,
       Forall2 (doc_segment (llm_of args)) paths segs
       /\ Forall2
            (fun path seg =>
               exists calls line,
                 seg = EPrint (String "010" ("Processing File: " ++ path))
                         :: calls ++ [EPrint line]
                 /\ Forall (fun ev => is_call ev = true) calls)
            paths segs
       /\ fst (run w)
          = ELlamaCpp (llm_of args) :: concat segs
              ++ (if is_empty paths
                  then [EPrint (no_pdfs_line (pdf_dir args))] else []).
Proof.
  intros Hp Hok Hl Hstat paths.
  assert (Hperm : Permutation paths (pdf_files_under (pdf_dir args) t)).
  { subst paths. rewrite (discover_eq w _ t Hstat). apply list_sort_perm. }
  split; [exact Hperm|]. split; [|split].
  - intros path. split.
    + intros Hin. apply (Permutation_in _ Hperm) in Hin.
      unfold pdf_files_under in Hin. apply in_map_iff in Hin.
      destruct Hin as ([dir name] & <- & Hin).
      apply filter_In in Hin as [Hin Hpdf].
      now exists dir, name.
    + intros (dir & name & Hin & Hpdf & ->).
      apply (Permutation_in _ (Permutation_sym Hperm)).
      unfold pdf_files_under. apply in_map_iff.
      exists (dir, name). split; [reflexivity|].
      apply filter_In. now split.
  - subst paths. rewrite (discover_eq w _ t Hstat). apply list_sort_Sorted.
  - destruct (run_started_segments w args Hp Hok Hl) as (segs & Hsegs & E & _).
    exists segs. split; [exact Hsegs|]. split; [|exact E].
    now apply doc_segments_headers with (llm_of args).
Qed.

Lemma discovery_sorted_headers_witness :
  discover Demo.w_three "./pdf"
  = ["./pdf/a.pdf"; "./pdf/b.pdf"; "./pdf/sub/C.PDF"]
  /\ Sorted path_le (discover Demo.w_three (pdf_dir Demo.args_default))
  /\ (exists segs,
         Forall2
           (fun path seg =>
              exists calls line,
                seg = EPrint (String "010" ("Processing File: " ++ path))
                        :: calls ++ [EPrint line]
                /\ Forall (fun ev => is_call ev = true) calls)
           ["./pdf/a.pdf"; "./pdf/b.pdf"; "./pdf/sub/C.PDF"] segs
         /\ fst (run Demo.w_three)
            = ELlamaCpp (llm_of Demo.args_default) :: concat segs ++ [])
  /\ filter is_print (fst (run Demo.w_three))
     = [EPrint (String "010" "Processing File: ./pdf/a.pdf");
        EPrint "Cats.";
        EPrint (String "010" "Processing File: ./pdf/b.pdf");
        EPrint "Failed to process ./pdf/b.pdf: invalid pdf header";
        EPrint (String "010" "Processing File: ./pdf/sub/C.PDF");
        EPrint "Cats."].
Proof.
  destruct (discovery_sorted_headers Demo.w_three Demo.args_default
              Demo.tree_three eq_refl eq_refl eq_refl eq_refl)
    as (_ & _ & Hsorted & segs & _ & Hheaders & E).
  split; [reflexivity|]. split; [exact Hsorted|]. split.
  - exists segs. split; [exact Hheaders|exact E].
  - reflexivity.
Defined.

(** ** The generation model *)

(** C8.  The generation model is loaded once and shared.  In every run
    the generation model is loaded at most once.  When a run makes any
    call of the per-document step, the load of the generation model is
    the first action of the run and succeeded, no other load of it
    follows, neither before that call nor after it, and every chain
    built or invoked in the run works with the model that was loaded. *)
Theorem model_loaded_once (w : World) :
  length (filter is_llm_load (fst (run w))) <= 1
  /\ forall pre e post,
       fst (run w) = pre ++ e :: post ->
       per_document e = true ->
       exists args pre',
         parsed w = Ok args
         /\ w_llama_cpp w [] (llm_of args) = Returns tt
         /\ pre = ELlamaCpp (llm_of args) :: pre'
         /\ Forall (fun ev => is_llm_load ev = false) (pre' ++ e :: post)
         /\ length (filter is_llm_load (fst (run w))) = 1
         /\ Forall (uses_llm (llm_of args)) (fst (run w)).
Proof.
  split; [apply run_loads_at_most_once|].
  intros pre e post E He.
  destruct (run_document_call w pre e post E He)
    as (args & pre' & Hp & Hl & -> & Hnone & Huses).
  exists args, pre'. repeat split; try assumption.
  rewrite E. cbn [app filter is_llm_load length]. f_equal.
  clear E. induction Hnone as [|ev l Hev _ IH]; cbn; [reflexivity|].
  now rewrite Hev.
Qed.

Lemma model_loaded_once_witness :
  length (filter is_llm_load (fst (run Demo.w_three))) = 1
  /\ Forall (uses_llm (llm_of Demo.args_default)) (fst (run Demo.w_three)).
Proof.
  destruct (proj2 (model_loaded_once Demo.w_three)
              [ELlamaCpp (llm_of Demo.args_default);
               EPrint (header_line "./pdf/a.pdf")]
              (ELoadAndSplit "./pdf/a.pdf")
              (skipn 3 (fst (run Demo.w_three)))
              eq_refl eq_refl)
    as (args & pre' & Hp & _ & _ & _ & Hone & Huses).
  injection Hp as <-. split; assumption.
Defined.

(** ** The context window *)

(** C9, as worded, fails: with [N_CTX=0] a valid run loads the model and
    processes its document with a context window of 0. *)
Lemma n_ctx_zero_is_used : ~ n_ctx_is_positive Demo.w_n_ctx_zero.
Proof.
  intros H.
  specialize (H {| llm_model_path := Some Demo.model_file; llm_n_ctx := 0;
                   llm_verbose := false |} "./pdf/a.pdf").
  cbn [llm_n_ctx] in H. apply (Z.lt_irrefl 0), H.
  - left. reflexivity.
  - right. right. left. reflexivity.
Qed.

(** C9, amended.  In every run that goes past the validation into the
    processing of a document, the context window the generation model is
    loaded with is the integer that [int] reads from the text of the
    [--n-ctx] flag, or without the flag from [N_CTX], or without both
    from [4096]; in the last case it is 4096.  The script makes no check
    of its sign. *)
Theorem n_ctx_is_parsed_integer
    (w : World) (llm : LlamaCpp) (path : string) :
  In (ELlamaCpp llm) (fst (run w)) ->
  In (ELoadAndSplit path) (fst (run w)) ->
  PyStr.int (n_ctx_text w) = Some (llm_n_ctx llm)
  /\ (cli_n_ctx (w_argv w) = None ->
      w_getenv w "N_CTX" = None ->
      llm_n_ctx llm = 4096%Z).
Proof.
  intros Hllm Hdoc.
  apply in_split in Hdoc as (pre & post & E).
  destruct (run_document_call w pre (ELoadAndSplit path) post E eq_refl)
    as (args & pre' & Hp & _ & -> & Hnone & _).
  assert (llm = llm_of args) as ->.
  { rewrite E in Hllm. cbn [app] in Hllm.
    destruct Hllm as [Hhd | Htl]; [now injection Hhd|].
    rewrite Forall_forall in Hnone.
    specialize (Hnone _ Htl). discriminate Hnone. }
  pose proof (parsed_n_ctx w args Hp) as Hint. cbn [llm_of llm_n_ctx].
  split; [exact Hint|].
  intros Hcli Henv. unfold n_ctx_text, getenv_default in Hint.
  rewrite Hcli, Henv in Hint. now injection Hint.
Qed.

Lemma n_ctx_is_parsed_integer_witness :
  PyStr.int (n_ctx_text Demo.w_n_ctx_zero) = Some 0%Z
  /\ PyStr.int (n_ctx_text Demo.w_three) = Some 4096%Z.
Proof.
  split.
  - apply (n_ctx_is_parsed_integer Demo.w_n_ctx_zero
             {| llm_model_path := Some Demo.model_file; llm_n_ctx := 0;
                llm_verbose := false |} "./pdf/a.pdf").
    + left. reflexivity.
    + right. right. left. reflexivity.
  - apply (n_ctx_is_parsed_integer Demo.w_three
             (llm_of Demo.args_default) "./pdf/a.pdf").
    + left. reflexivity.
    + right. right. left. reflexivity.
Defined.

(** C10.  When [N_CTX] is set to a text that is not an integer literal,
    the [int(...)] that computes the default of [--n-ctx] raises
    [ValueError] while the parser is built: the run ends there with that
    exception uncaught, before the validation and before any library
    call, nothing is printed on the standard output, so no [ERROR:] line,
    and the exit status is 1, not 2. *)
Theorem invalid_n_ctx_env_crashes (w : World) (s : string) :
  w_getenv w "N_CTX" = Some s ->
  PyStr.int s = None ->
  run w
  = ([], Raise (Exception
                  ("invalid literal for int() with base 10: "
                     ++ PyStr.repr s)))
  /\ parsed w
     = Raise (Exception
                ("invalid literal for int() with base 10: " ++ PyStr.repr s))
  /\ (forall line, ~ In (EPrint line) (fst (run w)))
  /\ exit_status (snd (run w)) = 1%Z
  /\ exit_status (snd (run w)) <> 2%Z.
Proof.
  intros Henv Hint.
  assert (Hparse : parse_args w []
                   = ([], Raise (Exception
                                   ("invalid literal for int() with base 10: "
                                      ++ PyStr.repr s)))).
  { rewrite parse_args_eq. unfold getenv_default. rewrite Henv.
    now rewrite Hint. }
  assert (E : run w
              = ([], Raise (Exception
                              ("invalid literal for int() with base 10: "
                                 ++ PyStr.repr s)))).
  { unfold run, main. now rewrite (bind_Raise _ _ _ _ _ Hparse). }
  split; [exact E|]. split; [|split; [|split]].
  - unfold parsed. now rewrite Hparse.
  - intros line. now rewrite E.
  - now rewrite E.
  - now rewrite E.
Qed.

Lemma invalid_n_ctx_env_crashes_witness :
  run Demo.w_n_ctx_word
  = ([], Raise (Exception "invalid literal for int() with base 10: 'abc'")).
Proof.
  exact (proj1 (invalid_n_ctx_env_crashes Demo.w_n_ctx_word "abc"
                  eq_refl eq_refl)).
Defined.

(** * Further properties *)

(** ** The stages of the per-document step *)

Section Stages.

Variable w : World.
Variable args : Namespace.
Variable llm : LlamaCpp.
Variable prompt : PromptTemplate.

(** The per-document step goes through the stages in order and stops at
    the first call that fails, at the empty extraction, or at the
    answer. *)
Lemma step_staged path tr :
  exists seg,
    staged_segment args llm prompt path seg
    /\ run_rag_over_pdf w path (question args) llm (embedding_model args)
         prompt (verbose args) tr = (tr ++ seg, Ok tt).
Proof.
  unfold run_rag_over_pdf. unfold bind at 1. unfold print at 1.
  unfold try_except_Exception.
  destruct (rag_body w path (question args) llm (embedding_model args)
              prompt (verbose args) (tr ++ [EPrint (header_line path)]))
    as [tr' r] eqn:E.
  unfold rag_body in E. unfold bind at 1 in E. rewrite extract_eq in E.
  destruct (w_load_and_split w _ path) as [pages|msg].
  2:{ injection E as <- <-. eexists. split.
      - apply (staged_failed _ _ _ _ [] [] 1 msg); [lia|lia].
      - unfold print. cbn [firstn doc_calls]. now rewrite <- !app_assoc. }
  cbn zeta in E.
  destruct (w_split_documents w _ _ pages) as [texts|msg].
  2:{ injection E as <- <-. eexists. split.
      - apply (staged_failed _ _ _ _ pages [] 2 msg); [lia|lia].
      - unfold print. cbn [firstn doc_calls]. now rewrite <- !app_assoc. }
  destruct (map page_content texts) as [|c cs] eqn:Hc; cbn [is_empty] in E.
  { unfold print in E. injection E as <- <-. eexists. split.
    - apply (staged_skipped _ _ _ _ pages texts Hc).
    - cbn [firstn doc_calls]. now rewrite <- !app_assoc. }
  assert (Hne : map page_content texts <> []) by (now rewrite Hc).
  rewrite <- Hc in E. clear Hc c cs.
  unfold bind, call, print in E.
  destruct (w_embeddings w _ _) as [[]|msg].
  2:{ injection E as <- <-. eexists. split.
      - apply (staged_failed _ _ _ _ pages texts 3 msg); [lia|auto].
      - unfold print. cbn [firstn doc_calls]. now rewrite <- !app_assoc. }
  destruct (w_faiss_from_texts w _ _ _) as [[]|msg].
  2:{ injection E as <- <-. eexists. split.
      - apply (staged_failed _ _ _ _ pages texts 4 msg); [lia|auto].
      - unfold print. cbn [firstn doc_calls].
        now rewrite <- !app_assoc. }
  destruct (w_retrieval_qa w _ _) as [[]|msg].
  2:{ injection E as <- <-. eexists. split.
      - apply (staged_failed _ _ _ _ pages texts 5 msg); [lia|auto].
      - unfold print. cbn [firstn doc_calls].
        now rewrite <- !app_assoc. }
  destruct (w_invoke w _ _ _) as [output|msg].
  2:{ injection E as <- <-. eexists. split.
      - apply (staged_failed _ _ _ _ pages texts 6 msg); [lia|auto].
      - unfold print. cbn [firstn doc_calls].
        now rewrite <- !app_assoc. }
  eexists. split.
  - apply (staged_answered _ _ _ _ pages texts output Hne).
  - unfold answer_line. cbn [doc_calls].
    destruct (output_result output); injection E as <- <-;
      now rewrite <- !app_assoc.
Qed.

(** The loop is one staged segment per path, in order. *)
Lemma process_all_staged paths :
  forall tr,
  exists segs,
    Forall2 (staged_segment args llm prompt) paths segs
    /\ process_all w args llm prompt paths tr = (tr ++ concat segs, Ok tt).
Proof.
  unfold process_all.
  induction paths as [|path rest IH]; intros tr.
  - exists []. split; [constructor|]. cbn. now rewrite app_nil_r.
  - destruct (step_staged path tr) as (seg & Hseg & E).
    destruct (IH (tr ++ seg)) as (segs & Hsegs & E').
    exists (seg :: segs). split; [now constructor|].
    cbn [for_each]. unfold bind at 1. rewrite E, E'. cbn [concat].
    now rewrite app_assoc.
Qed.

End Stages.

(** After a good start the trace is the model load and one staged
    segment per discovered path. *)
Lemma run_staged (w : World) (args : Namespace) :
  parsed w = Ok args ->
  config_ok w args = true ->
  model_loads w args ->
  exists segs,
    Forall2 (staged_segment args (llm_of args) build_prompt)
      (discover w (pdf_dir args)) segs
    /\ fst (run w)
       = ELlamaCpp (llm_of args) :: concat segs
           ++ (if is_empty (discover w (pdf_dir args))
               then [EPrint (no_pdfs_line (pdf_dir args))] else []).
Proof.
  intros Hp Hok Hl. rewrite (run_started w args Hp Hok Hl). cbn zeta.
  destruct (discover w (pdf_dir args)) as [|p ps] eqn:Hd; cbn [is_empty].
  - exists []. split; [constructor|reflexivity].
  - destruct (process_all_staged w args (llm_of args) build_prompt (p :: ps)
                [ELlamaCpp (llm_of args)]) as (segs & Hsegs & E).
    exists segs. split; [exact Hsegs|]. rewrite E. cbn [fst app].
    now rewrite app_nil_r.
Qed.



Section Counting.

Variable args : Namespace.
Variable llm : LlamaCpp.
Variable prompt : PromptTemplate.

Lemma filter_app_nil {A} (f : A -> bool) (l1 l2 : list A) :
  filter f l1 = [] -> filter f (l1 ++ l2) = filter f l2.
Proof. intros H. now rewrite filter_app, H. Qed.

Lemma doc_calls_no_print path pages texts n :
  filter is_print (firstn n (doc_calls args llm prompt path pages texts)) = [].
Proof. do 7 (destruct n as [|n]; [reflexivity|]). reflexivity. Qed.

Lemma doc_calls_one_embedding path pages texts n :
  length (filter is_embeddings_load
            (firstn n (doc_calls args llm prompt path pages texts))) <= 1.
Proof. do 7 (destruct n as [|n]; [cbn; lia|]). cbn; lia. Qed.

Lemma doc_calls_embedding_name path pages texts n :
  Forall (fun ev => match ev with
                    | EHuggingFaceEmbeddings name =>
                        name = embedding_model args
                    | _ => True
                    end)
    (firstn n (doc_calls args llm prompt path pages texts)).
Proof.
  do 7 (destruct n as [|n]; [now repeat constructor|]).
  now repeat constructor.
Qed.

(** A segment holds two calls of [print]: the header and the outcome. *)
Lemma staged_segment_prints path seg :
  staged_segment args llm prompt path seg ->
  length (filter is_print seg) = 2.
Proof.
  intros [pages texts n msg _ _ | pages texts _ | pages texts output _];
    cbn [filter is_print].
  - rewrite filter_app_nil by apply doc_calls_no_print. reflexivity.
  - rewrite filter_app_nil by apply doc_calls_no_print. reflexivity.
  - reflexivity.
Qed.

(** A segment holds at most one load of the embedding model, for the
    configured identifier. *)
Lemma staged_segment_embeddings path seg :
  staged_segment args llm prompt path seg ->
  length (filter is_embeddings_load seg) <= 1
  /\ Forall (fun ev => match ev with
                       | EHuggingFaceEmbeddings name =>
                           name = embedding_model args
                       | _ => True
                       end) seg.
Proof.
  intros [pages texts n msg _ _ | pages texts _ | pages texts output _].
  - split.
    + cbn [filter is_embeddings_load]. rewrite filter_app, length_app.
      pose proof (doc_calls_one_embedding path pages texts n). cbn. lia.
    + constructor; [exact I|]. apply Forall_app. split.
      * apply doc_calls_embedding_name.
      * now repeat constructor.
  - split; [cbn; lia|]. now repeat constructor.
  - split; [cbn; lia|]. now repeat constructor.
Qed.

Lemma staged_segments_prints paths segs :
  Forall2 (staged_segment args llm prompt) paths segs ->
  length (filter is_print (concat segs)) = 2 * length paths.
Proof.
  induction 1 as [|path seg paths segs Hseg _ IH]; [reflexivity|].
  cbn [concat length]. rewrite filter_app, length_app, IH.
  rewrite (staged_segment_prints path seg Hseg). lia.
Qed.

Lemma staged_segments_embeddings paths segs :
  Forall2 (staged_segment args llm prompt) paths segs ->
  length (filter is_embeddings_load (concat segs)) <= length paths
  /\ Forall (fun ev => match ev with
                       | EHuggingFaceEmbeddings name =>
                           name = embedding_model args
                       | _ => True
                       end) (concat segs).
Proof.
  induction 1 as [|path seg paths segs Hseg _ [IHn IHf]].
  - split; [cbn; lia|constructor].
  - destruct (staged_segment_embeddings path seg Hseg) as [Hn Hf].
    cbn [concat length]. split.
    + rewrite filter_app, length_app. lia.
    + apply Forall_app. now split.
Qed.

End Counting.

(** X2.  One outcome per file.  In a run that reached the loop the script
    calls [print] twice for every discovered file, once for its header
    and once for its outcome, and makes no other call of [print]; over a
    directory without PDF it calls [print] once, for the notice.  A call
    of [print] may give several physical lines: the header starts with a
    line feed and an answer may hold some. *)
Theorem two_prints_per_document (w : World) (args : Namespace) :
  parsed w = Ok args ->
  config_ok w args = true ->
  model_loads w args ->
  length (filter is_print (fst (run w)))
  = if is_empty (discover w (pdf_dir args)) then 1
    else 2 * length (discover w (pdf_dir args)).
Proof.
  intros Hp Hok Hl.
  destruct (run_staged w args Hp Hok Hl) as (segs & Hsegs & E).
  rewrite E. cbn [filter is_print]. rewrite filter_app, length_app.
  rewrite (staged_segments_prints _ _ _ _ _ Hsegs).
  destruct (discover w (pdf_dir args)); cbn; lia.
Qed.

Lemma two_prints_per_document_witness :
  length (filter is_print (fst (run Demo.w_three))) = 6.
Proof.
  exact (two_prints_per_document Demo.w_three Demo.args_default
           eq_refl eq_refl eq_refl).
Defined.

(** X3.  The embedding model is loaded per document.  In a run that
    reached the loop the embedding model is loaded at most once for each
    discovered file, so at most as many times as there are files, and
    always for the configured identifier. *)
Theorem embedding_loaded_per_document (w : World) (args : Namespace) :
  parsed w = Ok args ->
  config_ok w args = true ->
  model_loads w args ->
  length (filter is_embeddings_load (fst (run w)))
  <= length (discover w (pdf_dir args))
  /\ Forall (fun ev => match ev with
                       | EHuggingFaceEmbeddings name =>
                           name = embedding_model args
                       | _ => True
                       end) (fst (run w)).
Proof.
  intros Hp Hok Hl.
  destruct (run_staged w args Hp Hok Hl) as (segs & Hsegs & E).
  destruct (staged_segments_embeddings _ _ _ _ _ Hsegs) as [Hn Hf].
  rewrite E. split.
  - cbn [filter is_embeddings_load]. rewrite filter_app, length_app.
    destruct (is_empty _); cbn; lia.
  - constructor; [exact I|]. apply Forall_app. split; [exact Hf|].
    destruct (is_empty _); now repeat constructor.
Qed.

Lemma embedding_loaded_per_document_witness :
  length (filter is_embeddings_load (fst (run Demo.w_three))) <= 3.
Proof.
  exact (proj1 (embedding_loaded_per_document Demo.w_three Demo.args_default
                  eq_refl eq_refl eq_refl)).
Defined.

(** ** The answer line *)

Lemma dict_get_none key items :
  dict_get key items = None <-> ~ In key (map fst items).
Proof.
  induction items as [|[k v] r IH]; cbn.
  - tauto.
  - destruct (String.eqb_spec k key) as [->|Hne].
    + split; [discriminate|]. intros H. exfalso. apply H. now left.
    + rewrite IH. split.
      * intros H [Heq|Hin]; [now apply Hne|now apply H].
      * intros H Hin. apply H. now right.
Qed.

(** X4.  The answer line.  When every call made for a document succeeds,
    the step makes the six calls in order and prints one line for the
    object the chain returned: the value under the key [result] when the
    object is a dict that has this key, and otherwise, for an object that
    is not a dict or a dict without the key, the text of the object
    itself.  No failure line is printed. *)
Theorem answer_is_result_or_object
    (w : World) (args : Namespace) (llm : LlamaCpp) (prompt : PromptTemplate)
    (path : string) (tr : trace) (pages texts : list Document)
    (output : PyObject) :
  let calls := doc_calls args llm prompt path pages texts in
  let before k := tr ++ EPrint (header_line path) :: firstn k calls in
  w_load_and_split w (before 0) path = Returns pages ->
  w_split_documents w (before 1) (RecursiveCharacterTextSplitter 500 200)
    pages = Returns texts ->
  map page_content texts <> [] ->
  w_embeddings w (before 2) (embedding_model args) = Returns tt ->
  w_faiss_from_texts w (before 3) (map page_content texts)
    {| model_name := embedding_model args |} = Returns tt ->
  w_retrieval_qa w (before 4) (doc_chain args llm prompt texts)
  = Returns tt ->
  w_invoke w (before 5) (doc_chain args llm prompt texts) (question args)
  = Returns output ->
  run_rag_over_pdf w path (question args) llm (embedding_model args) prompt
    (verbose args) tr
  = (tr ++ EPrint (header_line path) :: calls
        ++ [EPrint (answer_line output)], Ok tt)
  /\ (forall items answer,
         obj_items output = Some items ->
         dict_get "result" items = Some answer ->
         answer_line output = answer)
  /\ (obj_items output = None -> answer_line output = obj_str output)
  /\ (forall items,
         obj_items output = Some items ->
         ~ In "result" (map fst items) ->
         answer_line output = obj_str output).
Proof.
  intros calls before Hload Hsplit Hne Hemb Hfaiss Hqa Hinvoke.
  subst before calls. cbn [firstn doc_calls] in *.
  split; [|split; [|split]].
  - unfold run_rag_over_pdf. unfold bind at 1. unfold print at 1.
    unfold try_except_Exception, rag_body. unfold bind at 1.
    rewrite extract_eq. rewrite Hload. cbn zeta.
    rewrite <- !app_assoc. cbn [app]. rewrite Hsplit.
    destruct (map page_content texts) as [|c cs] eqn:Hc;
      [now elim Hne|].
    cbn [is_empty]. clear Hne. rewrite <- Hc in *. clear Hc c cs.
    unfold bind at 1. unfold call at 1. rewrite Hemb.
    rewrite <- !app_assoc. cbn [app].
    unfold bind at 1. unfold call at 1. rewrite Hfaiss.
    rewrite <- !app_assoc. cbn [app].
    unfold bind at 1. unfold call at 1.
    fold (doc_index args texts). fold (doc_chain args llm prompt texts).
    rewrite Hqa. rewrite <- !app_assoc. cbn [app].
    unfold bind at 1. unfold call at 1. rewrite Hinvoke.
    rewrite <- !app_assoc. cbn [app].
    unfold answer_line, print.
    destruct (output_result output); now rewrite <- !app_assoc.
  - intros items answer Hitems Hget. unfold answer_line, output_result.
    now rewrite Hitems, Hget.
  - intros Hnone. unfold answer_line, output_result. now rewrite Hnone.
  - intros items Hitems Hnot. unfold answer_line, output_result.
    rewrite Hitems. apply dict_get_none in Hnot. now rewrite Hnot.
Qed.

Lemma answer_is_result_or_object_witness :
  run_rag_over_pdf (Demo2.with_output Demo2.dict_without_result Demo.w_three)
    "./pdf/a.pdf" (question Demo.args_default) (llm_of Demo.args_default)
    (embedding_model Demo.args_default) build_prompt
    (verbose Demo.args_default) []
  = (EPrint (header_line "./pdf/a.pdf")
       :: doc_calls Demo.args_default (llm_of Demo.args_default) build_prompt
            "./pdf/a.pdf" Demo.one_page Demo.one_page
       ++ [EPrint "{'answer': 'Cats.'}"], Ok tt).
Proof.
  assert (Hne : map page_content Demo.one_page <> []) by discriminate.
  exact (proj1 (answer_is_result_or_object
                  (Demo2.with_output Demo2.dict_without_result Demo.w_three)
                  Demo.args_default (llm_of Demo.args_default) build_prompt
                  "./pdf/a.pdf" [] Demo.one_page Demo.one_page
                  Demo2.dict_without_result
                  eq_refl eq_refl Hne eq_refl eq_refl eq_refl eq_refl)).
Defined.

(** ** How a run ends *)

(** The result of a run, from the parse, the validation, the load of the
    generation model and the discovery. *)
Lemma run_result (w : World) :
  snd (run w)
  = match parsed w with
    | Raise e => Raise e
    | Ok args =>
        if config_ok w args then
          match w_llama_cpp w [] (llm_of args) with
          | Fails msg => Raise (Exception msg)
          | Returns _ =>
              if is_empty (discover w (pdf_dir args))
              then Raise (SystemExit 0) else Ok tt
          end
        else Raise (SystemExit 2)
    end.
Proof.
  destruct (parsed w) as [args|e] eqn:Hp.
  2:{ destruct (parsed_Raise w e Hp) as (tr & E & _).
      unfold run, main. now rewrite (bind_Raise _ _ _ _ _ E). }
  destruct (config_ok w args) eqn:Hok.
  2:{ destruct (run_refused w args Hp Hok) as (msg & _ & E). now rewrite E. }
  destruct (w_llama_cpp w [] (llm_of args)) as [[]|msg] eqn:Hl.
  2:{ now rewrite (run_load_fails w args Hp Hok msg Hl). }
  rewrite (run_started w args Hp Hok Hl). cbn zeta.
  destruct (discover w (pdf_dir args)) as [|p ps] eqn:Hd; [reflexivity|].
  cbn [is_empty].
  destruct (process_all_staged w args (llm_of args) build_prompt (p :: ps)
              [ELlamaCpp (llm_of args)]) as (segs & _ & E).
  now rewrite E.
Qed.

(** A parse fails with the [ValueError] of [int] or with the
    [SystemExit(2)] of [argparse]. *)
Lemma parsed_Raise_cases (w : World) (e : exn) :
  parsed w = Raise e ->
  (exists msg, e = Exception msg) \/ e = SystemExit 2.
Proof.
  unfold parsed. rewrite parse_args_eq.
  destruct (PyStr.int (getenv_default w "N_CTX" "4096")).
  - destruct (PyStr.int (n_ctx_text w)); [discriminate|].
    cbn. intros [= <-]. now right.
  - cbn. intros [= <-]. left. now eexists.
Qed.

(** X5.  A failing load of the generation model ends the run.  When the
    configuration is valid and the generation model cannot be loaded, the
    exception is not caught: the load is the only action of the run,
    nothing is printed, no document is processed, and the exit status is
    1. *)
Theorem generation_model_failure_is_fatal
    (w : World) (args : Namespace) (msg : string) :
  parsed w = Ok args ->
  config_ok w args = true ->
  w_llama_cpp w [] (llm_of args) = Fails msg ->
  run w = ([ELlamaCpp (llm_of args)], Raise (Exception msg))
  /\ exit_status (snd (run w)) = 1%Z
  /\ Forall (fun ev => is_print ev = false /\ per_document ev = false)
       (fst (run w)).
Proof.
  intros Hp Hok Hl. rewrite (run_load_fails w args Hp Hok msg Hl).
  repeat split. now repeat constructor.
Qed.

Lemma generation_model_failure_is_fatal_witness :
  run Demo2.w_no_llm
  = ([ELlamaCpp (llm_of Demo.args_default)],
     Raise (Exception "failed to load model from file")).
Proof.
  exact (proj1 (generation_model_failure_is_fatal Demo2.w_no_llm
                  Demo.args_default _ eq_refl eq_refl eq_refl)).
Defined.

(** X6.  The exit status of a run.  For a command line made of the flags
    of the script, the status is 0, 1 or 2.  A run whose parse succeeds,
    whose configuration passes the validation and whose generation model
    loads ends with 0, whatever happens to the documents.  The status is
    2 exactly when [argparse] refuses the command line or the validation
    refuses the configuration, and 1 exactly when the text of [N_CTX] is
    refused by [int] or the generation model fails to load.  (A request
    for help, which [argparse] answers by itself with status 0, is not a
    command line of the model: status 0 is not claimed to come from a
    successful load only.) *)
Theorem exit_status_classification (w : World) :
  (forall args,
      parsed w = Ok args -> config_ok w args = true -> model_loads w args ->
      exit_status (snd (run w)) = 0%Z)
  /\ (exit_status (snd (run w)) = 2%Z
      <-> parsed w = Raise (SystemExit 2)
          \/ exists args, parsed w = Ok args /\ config_ok w args = false)
  /\ (exit_status (snd (run w)) = 1%Z
      <-> (exists msg, parsed w = Raise (Exception msg))
          \/ exists args msg,
               parsed w = Ok args /\ config_ok w args = true
               /\ w_llama_cpp w [] (llm_of args) = Fails msg)
  /\ (exit_status (snd (run w)) = 0%Z \/ exit_status (snd (run w)) = 1%Z
      \/ exit_status (snd (run w)) = 2%Z).
Proof.
  rewrite run_result. unfold model_loads.
  destruct (parsed w) as [args|e] eqn:Hp.
  - destruct (config_ok w args) eqn:Hok.
    + destruct (w_llama_cpp w [] (llm_of args)) as [[]|msg] eqn:Hl.
      * assert (Hz : exit_status
                       (if is_empty (discover w (pdf_dir args))
                        then Raise (SystemExit 0) else Ok tt) = 0%Z)
          by (now destruct (is_empty _)).
        rewrite Hz. repeat split; try discriminate; auto.
        -- intros [H | (a & [= <-] & H)]; [discriminate|congruence].
        -- intros [(m & H) | (a & m & [= <-] & _ & H)];
             [discriminate|congruence].
      * cbn [exit_status]. repeat split; try discriminate; auto.
        -- intros a [= <-] _ H. congruence.
        -- intros [H | (a & [= <-] & H)]; [discriminate|congruence].
        -- intros _. right. now exists args, msg.
    + cbn [exit_status]. repeat split; try discriminate; auto.
      * intros a [= <-] H. congruence.
      * intros _. right. now exists args.
      * intros [(m & H) | (a & m & [= <-] & H & _)];
          [discriminate|congruence].
  - destruct (parsed_Raise_cases w e Hp) as [(msg & ->) | ->];
      cbn [exit_status]; repeat split; try discriminate; auto.
    + intros [H | (a & H & _)]; discriminate.
    + intros _. left. now exists msg.
    + intros [(m & H) | (a & m & H & _)]; discriminate.
Qed.

Lemma exit_status_classification_witness :
  exit_status (snd (run Demo.w_three)) = 0%Z.
Proof.
  exact (proj1 (exit_status_classification Demo.w_three)
           Demo.args_default eq_refl eq_refl eq_refl).
Defined.

(** X7.  [argparse] refuses a [--n-ctx] flag that is not an integer.
    When the text of [N_CTX], or [4096] without it, is an integer and the
    flag [--n-ctx] is given with a text that [int] refuses, the run is
    one message on the standard error followed by [SystemExit(2)]:
    nothing is printed on the standard output, so no [ERROR:] line, and
    the validation is not reached. *)
Theorem argparse_rejects_n_ctx_flag (w : World) (s : string) (d : Z) :
  PyStr.int (getenv_default w "N_CTX" "4096") = Some d ->
  cli_n_ctx (w_argv w) = Some s ->
  PyStr.int s = None ->
  run w
  = ([EStderr ("error: argument --n-ctx: invalid int value: "
                 ++ PyStr.repr s)], Raise (SystemExit 2))
  /\ exit_status (snd (run w)) = 2%Z
  /\ Forall (fun ev => is_print ev = false /\ is_call ev = false)
       (fst (run w)).
Proof.
  intros Henv Hcli Hint.
  assert (E : run w
              = ([EStderr ("error: argument --n-ctx: invalid int value: "
                             ++ PyStr.repr s)], Raise (SystemExit 2))).
  { unfold run, main. unfold bind at 1. rewrite parse_args_eq, Henv.
    unfold n_ctx_text. now rewrite Hcli, Hint. }
  rewrite E. repeat split. now repeat constructor.
Qed.

Lemma argparse_rejects_n_ctx_flag_witness :
  run Demo2.w_bad_flag
  = ([EStderr "error: argument --n-ctx: invalid int value: 'big'"],
     Raise (SystemExit 2)).
Proof.
  exact (proj1 (argparse_rejects_n_ctx_flag Demo2.w_bad_flag "big" 4096
                  eq_refl eq_refl eq_refl)).
Defined.

(** ** The checks of the validation, one by one *)

Section Checks.

Variable w : World.
Variable args : Namespace.
Hypothesis Hparsed : parsed w = Ok args.

(** A run whose validation prints [msg] and exits. *)
Lemma run_validation_message msg :
  validate_inputs w (model_path args) (pdf_dir args) (question args) []
  = ([EPrint msg], Raise (SystemExit 2)) ->
  run w = ([EPrint msg], Raise (SystemExit 2)).
Proof.
  intros E. unfold run, main.
  rewrite (bind_Ok _ _ _ _ _ (parsed_Ok w args Hparsed [])).
  now rewrite (bind_Raise _ _ _ _ _ E).
Qed.

Lemma isabs_nonempty p : Os.path_isabs p = true -> String.eqb p "" = false.
Proof. now destruct p. Qed.

End Checks.

(** X8.  The validation reports the first check that fails, and only that
    one, in the order of the script: a missing or empty model path; then
    a model path that is not absolute, whether or not it exists; then a
    model path that names nothing; then a PDF directory that is not a
    directory, which covers a path that names a regular file; then a
    missing or empty question.  Each time the run is the one line given
    here followed by [sys.exit(2)]. *)
Theorem validation_reports_first_failure (w : World) (args : Namespace) :
  parsed w = Ok args ->
  (PyStr.truthy (model_path args) = false ->
   run w
   = ([EPrint "ERROR: --model-path is required (or set MODEL_PATH in .env)"],
      Raise (SystemExit 2)))
  /\ (forall p,
         model_path args = Some p -> p <> "" ->
         Os.path_isabs p = false ->
         run w
         = ([EPrint
               "ERROR: --model-path must be an absolute path to the GGUF file"],
            Raise (SystemExit 2)))
  /\ (forall p,
         model_path args = Some p ->
         Os.path_isabs p = true -> exists_at w p = false ->
         run w
         = ([EPrint ("ERROR: model file not found: " ++ p)],
            Raise (SystemExit 2)))
  /\ (forall p,
         model_path args = Some p ->
         Os.path_isabs p = true -> exists_at w p = true ->
         isdir_at w (pdf_dir args) = false ->
         run w
         = ([EPrint ("ERROR: pdf directory not found: " ++ pdf_dir args)],
            Raise (SystemExit 2)))
  /\ (forall p,
         model_path args = Some p ->
         Os.path_isabs p = true -> exists_at w p = true ->
         isdir_at w (pdf_dir args) = true ->
         PyStr.truthy (question args) = false ->
         run w
         = ([EPrint "ERROR: --question is required (or set QUESTION in .env)"],
            Raise (SystemExit 2))).
Proof.
  intros Hp. repeat split.
  - intros Hmp. apply (run_validation_message w args Hp).
    unfold validate_inputs. unfold bind at 1. now rewrite Hmp.
  - intros p Hmp Hne Habs. apply (run_validation_message w args Hp).
    apply String.eqb_neq in Hne.
    unfold validate_inputs, bind, when, os_path_isabs, ret, print, sys_exit,
      raise.
    rewrite Hmp. cbn [PyStr.truthy]. now rewrite Hne, Habs.
  - intros p Hmp Habs Hex. apply (run_validation_message w args Hp).
    unfold validate_inputs, bind, when, os_path_isabs, os_path_exists, ret,
      print, sys_exit, raise.
    rewrite Hmp. cbn [PyStr.truthy fmt].
    now rewrite (isabs_nonempty p Habs), Habs, Hex.
  - intros p Hmp Habs Hex Hdir. apply (run_validation_message w args Hp).
    unfold validate_inputs, bind, when, os_path_isabs, os_path_exists, ret,
      print, sys_exit, raise.
    rewrite Hmp. cbn [PyStr.truthy fmt].
    now rewrite (isabs_nonempty p Habs), Habs, Hex, Hdir.
  - intros p Hmp Habs Hex Hdir Hq. apply (run_validation_message w args Hp).
    unfold validate_inputs, bind, when, os_path_isabs, os_path_exists, ret,
      print, sys_exit, raise.
    rewrite Hmp. cbn [PyStr.truthy fmt].
    now rewrite (isabs_nonempty p Habs), Habs, Hex, Hdir, Hq.
Qed.

Lemma validation_reports_first_failure_witness :
  run Demo2.w_relative_model
  = ([EPrint
        "ERROR: --model-path must be an absolute path to the GGUF file"],
     Raise (SystemExit 2))
  /\ run Demo2.w_pdf_dir_is_file
     = ([EPrint "ERROR: pdf directory not found: ./pdf"],
        Raise (SystemExit 2)).
Proof.
  split.
  - refine (proj1 (proj2 (validation_reports_first_failure
                            Demo2.w_relative_model
                            {| model_path := Some "models/m.gguf";
                               pdf_dir := "./pdf";
                               embedding_model := "BAAI/bge-small-en-v1.5";
                               n_ctx := 4096; question := None;
                               verbose := false |} eq_refl))
                  "models/m.gguf" eq_refl _ eq_refl).
    discriminate.
  - exact (proj1 (proj2 (proj2 (proj2
             (validation_reports_first_failure Demo2.w_pdf_dir_is_file
                Demo.args_default eq_refl))))
             Demo.model_file eq_refl eq_refl eq_refl eq_refl).
Defined.

(** X9.  What passes the validation.  For a parsed configuration, the
    generation model is loaded exactly when the five checks pass: the
    model path is a non-empty absolute path that names something on disk,
    a file or a directory alike; the PDF directory names a directory; and
    the question is not empty.  The embedding model and the context size
    are not looked at. *)
Theorem model_load_iff_config_passes (w : World) (args : Namespace) :
  parsed w = Ok args ->
  ((exists p,
       model_path args = Some p /\ p <> "" /\ Os.path_isabs p = true
       /\ exists_at w p = true /\ isdir_at w (pdf_dir args) = true
       /\ PyStr.truthy (question args) = true)
   <-> In (ELlamaCpp (llm_of args)) (fst (run w)))
  /\ (In (ELlamaCpp (llm_of args)) (fst (run w))
      <-> exists rest, fst (run w) = ELlamaCpp (llm_of args) :: rest).
Proof.
  intros Hp.
  assert (Hiff : config_ok w args = true
                 <-> exists p,
                       model_path args = Some p /\ p <> ""
                       /\ Os.path_isabs p = true /\ exists_at w p = true
                       /\ isdir_at w (pdf_dir args) = true
                       /\ PyStr.truthy (question args) = true).
  { unfold config_ok. destruct (model_path args) as [p|].
    - rewrite !andb_true_iff, negb_true_iff, String.eqb_neq. split.
      + intros ((((H1 & H2) & H3) & H4) & H5). now exists p.
      + intros (p' & [= <-] & H1 & H2 & H3 & H4 & H5). tauto.
    - split; [discriminate|]. now intros (p & H & _). }
  assert (Hrun : config_ok w args = true
                 <-> exists rest, fst (run w) = ELlamaCpp (llm_of args) :: rest).
  { destruct (config_ok w args) eqn:Hok.
    - split; [intros _|reflexivity].
      destruct (w_llama_cpp w [] (llm_of args)) as [[]|msg] eqn:Hl.
      + destruct (run_started_segments w args Hp Hok Hl) as (segs & _ & E & _).
        rewrite E. now eexists.
      + rewrite (run_load_fails w args Hp Hok msg Hl). now eexists.
    - split; [discriminate|]. intros (rest & E).
      destruct (run_refused w args Hp Hok) as (msg & _ & E').
      rewrite E' in E. discriminate. }
  assert (Hin : In (ELlamaCpp (llm_of args)) (fst (run w))
                <-> exists rest, fst (run w) = ELlamaCpp (llm_of args) :: rest).
  { split.
    - intros Hin. apply Hrun. destruct (config_ok w args) eqn:Hok;
        [reflexivity|].
      destruct (run_refused w args Hp Hok) as (msg & _ & E').
      rewrite E' in Hin. destruct Hin as [H|[]]. discriminate.
    - intros (rest & ->). now left. }
  split; [|exact Hin].
  rewrite <- Hiff, Hrun. now rewrite Hin.
Qed.

Lemma model_load_iff_config_passes_witness :
  In (ELlamaCpp (llm_of Demo.args_default)) (fst (run Demo2.w_model_is_dir)).
Proof.
  apply (proj1 (model_load_iff_config_passes Demo2.w_model_is_dir
                  Demo.args_default eq_refl)).
  exists Demo.model_file. repeat split. discriminate.
Defined.

(** ** More on the discovery *)

Section PathOrder.

Lemma ascii_compare_refl c : Ascii.compare c c = Eq.
Proof. unfold Ascii.compare. apply N.compare_refl. Qed.

Lemma ascii_compare_trans c1 c2 c3 r :
  Ascii.compare c1 c2 = r -> Ascii.compare c2 c3 = r ->
  Ascii.compare c1 c3 = r.
Proof.
  unfold Ascii.compare. destruct r; intros H1 H2.
  - apply N.compare_eq_iff in H1, H2. apply N.compare_eq_iff. congruence.
  - apply N.compare_lt_iff in H1. apply N.compare_lt_iff in H2.
    apply N.compare_lt_iff. now apply N.lt_trans with (N_of_ascii c2).
  - apply N.compare_gt_iff in H1. apply N.compare_gt_iff in H2.
    apply N.compare_gt_iff. now apply N.lt_trans with (N_of_ascii c2).
Qed.

(** The order on paths is transitive. *)
Lemma path_le_trans a :
  forall b c, path_le a b -> path_le b c -> path_le a c.
Proof.
  unfold path_le, String.leb.
  induction a as [|x a IH]; intros [|y b] [|z c]; cbn; try easy.
  destruct (Ascii.compare x y) eqn:Hxy; try easy;
    destruct (Ascii.compare y z) eqn:Hyz; try easy.
  - apply Ascii.compare_eq_iff in Hxy, Hyz. subst.
    rewrite ascii_compare_refl. apply IH.
  - apply Ascii.compare_eq_iff in Hxy. subst. now rewrite Hyz.
  - apply Ascii.compare_eq_iff in Hyz. subst. now rewrite Hxy.
  - now rewrite (ascii_compare_trans x y z Lt Hxy Hyz).
Qed.

(** Two sorted lists with the same elements are the same list. *)
Lemma sorted_permutation_unique l1 :
  forall l2,
    StronglySorted path_le l1 -> StronglySorted path_le l2 ->
    Permutation l1 l2 -> l1 = l2.
Proof.
  induction l1 as [|x r1 IH]; intros l2 H1 H2 Hperm.
  - now apply Permutation_nil in Hperm.
  - destruct l2 as [|y r2].
    { apply Permutation_sym, Permutation_nil in Hperm. discriminate. }
    inversion H1 as [|? ? Hs1 Hall1]. inversion H2 as [|? ? Hs2 Hall2].
    subst.
    assert (x = y) as ->.
    { assert (Hy : In y (x :: r1))
        by (apply (Permutation_in _ (Permutation_sym Hperm)); now left).
      assert (Hx : In x (y :: r2))
        by (apply (Permutation_in _ Hperm); now left).
      destruct Hy as [->|Hy]; [reflexivity|].
      destruct Hx as [->|Hx]; [reflexivity|].
      rewrite Forall_forall in Hall1, Hall2.
      apply String.leb_antisym; [now apply Hall1|now apply Hall2]. }
    f_equal. apply IH; try assumption.
    now apply Permutation_cons_inv with y.
Qed.

Lemma list_sort_StronglySorted l : StronglySorted path_le (list_sort l).
Proof.
  apply Sorted_StronglySorted; [|apply list_sort_Sorted].
  intros a b c. apply path_le_trans.
Qed.

(** [l.sort()] forgets the order its list came in. *)
Lemma list_sort_canonical l1 l2 :
  Permutation l1 l2 -> list_sort l1 = list_sort l2.
Proof.
  intros Hperm. apply sorted_permutation_unique;
    try apply list_sort_StronglySorted.
  rewrite !list_sort_perm. exact Hperm.
Qed.

Lemma Permutation_filter_keep {A} (f : A -> bool) (l1 l2 : list A) :
  Permutation l1 l2 -> Permutation (filter f l1) (filter f l2).
Proof.
  induction 1 as [|x l l' _ IH|x y l|l l' l'' _ IH1 _ IH2]; cbn.
  - constructor.
  - destruct (f x); [now constructor|exact IH].
  - destruct (f x), (f y); try reflexivity. apply perm_swap.
  - now transitivity (filter f l').
Qed.

End PathOrder.

(** X10.  The order of processing does not depend on the order of the
    listing.  Two directories that hold the same files, listed by the
    operating system in different orders, give the same sequence of paths
    to process. *)
Theorem discovery_ignores_listing_order
    (w w' : World) (top : string) (t t' : Os.dirtree) :
  w_stat w top = Some (Os.NDir t) ->
  w_stat w' top = Some (Os.NDir t') ->
  Permutation (Os.files_under top t) (Os.files_under top t') ->
  discover w top = discover w' top.
Proof.
  intros Hs Hs' Hperm.
  rewrite (discover_eq w top t Hs), (discover_eq w' top t' Hs').
  apply list_sort_canonical. unfold pdf_files_under.
  apply Permutation_map. now apply Permutation_filter_keep.
Qed.

Lemma discovery_ignores_listing_order_witness :
  discover Demo.w_three "./pdf" = discover Demo2.w_three_shuffled "./pdf".
Proof.
  apply (discovery_ignores_listing_order Demo.w_three Demo2.w_three_shuffled
           "./pdf" Demo.tree_three Demo2.tree_three_shuffled
           eq_refl eq_refl).
  cbn. apply perm_swap.
Defined.

Section PathPrefix.

Lemma prefix_refl_app a b : prefix a (a ++ b)%string = true.
Proof.
  induction a as [|c a IH]; cbn; [now destruct b|].
  now destruct (ascii_dec c c).
Qed.

Lemma prefix_refl a : prefix a a = true.
Proof.
  induction a as [|c a IH]; cbn; [reflexivity|].
  now destruct (ascii_dec c c).
Qed.

Lemma prefix_trans a :
  forall b c, prefix a b = true -> prefix b c = true -> prefix a c = true.
Proof.
  induction a as [|x a IH]; intros [|y b] [|z c]; cbn; try easy.
  destruct (ascii_dec x y) as [->|]; [|discriminate].
  destruct (ascii_dec y z) as [->|]; [|discriminate].
  apply IH.
Qed.

(** Joining a name that does not start with a slash keeps the directory
    in front. *)
Lemma path_join_prefix a b :
  PyStr.startswith b "/" = false ->
  PyStr.startswith (Os.path_join a b) a = true.
Proof.
  intros Hb. unfold Os.path_join, PyStr.startswith in *. rewrite Hb.
  destruct (_ || _); apply prefix_refl_app.
Qed.

Lemma plain_names_Dir files subdirs :
  plain_names (Os.Dir files subdirs)
  <-> Forall (fun name => PyStr.startswith name "/" = false) files
      /\ Forall (fun d => PyStr.startswith (fst d) "/" = false
                          /\ plain_names (snd d)) subdirs.
Proof.
  cbn [plain_names]. apply and_iff_compat_l.
  induction subdirs as [|d r IH].
  - split; [constructor|trivial].
  - rewrite IH. split.
    + intros (H1 & H2 & H3). now constructor.
    + intros H. inversion H as [|? ? [H1 H2] H3]. now subst.
Qed.

(** In a tree of plain names every file sits in a directory whose path
    starts with the top, and has a plain name. *)
Lemma files_under_prefix t :
  forall top,
    plain_names t ->
    Forall (fun f => PyStr.startswith (fst f) top = true
                     /\ PyStr.startswith (snd f) "/" = false)
      (Os.files_under top t).
Proof.
  induction t as [files subdirs IH] using dirtree_nested_ind.
  intros top Hplain. apply plain_names_Dir in Hplain as [Hfiles Hsubs].
  cbn [Os.files_under]. apply Forall_app. split.
  - apply Forall_forall. intros f Hf. apply in_map_iff in Hf.
    destruct Hf as (name & <- & Hin). cbn [fst snd]. split.
    + apply prefix_refl.
    + rewrite Forall_forall in Hfiles. now apply Hfiles.
  - apply Forall_forall. intros f Hf. apply in_flat_map in Hf.
    destruct Hf as ([name sub] & Hd & Hin). cbn [fst snd] in Hin.
    rewrite Forall_forall in IH, Hsubs.
    destruct (Hsubs _ Hd) as [Hname Hsub]. cbn [fst snd] in Hname, Hsub.
    specialize (IH _ Hd (Os.path_join top name) Hsub).
    rewrite Forall_forall in IH. destruct (IH f Hin) as [Hpre Hplain].
    split; [|exact Hplain].
    unfold PyStr.startswith in *.
    apply prefix_trans with (Os.path_join top name); [|exact Hpre].
    now apply path_join_prefix.
Qed.

End PathPrefix.

(** X11.  The discovered paths stay under the configured directory.
    When the names of the entries do not start with a slash, as the names
    a directory listing returns, every discovered path starts with the
    text of the directory the walk was given: a relative directory gives
    relative paths, an absolute one absolute paths. *)
Theorem discovered_paths_under_directory
    (w : World) (top : string) (t : Os.dirtree) :
  w_stat w top = Some (Os.NDir t) ->
  plain_names t ->
  Forall (fun path => PyStr.startswith path top = true) (discover w top).
Proof.
  intros Hs Hplain. rewrite (discover_eq w top t Hs).
  apply Forall_forall. intros path Hin.
  apply (Permutation_in _ (list_sort_perm _)) in Hin.
  unfold pdf_files_under in Hin. apply in_map_iff in Hin.
  destruct Hin as ([dir name] & <- & Hin). apply filter_In in Hin as [Hin _].
  pose proof (files_under_prefix t top Hplain) as Hall.
  rewrite Forall_forall in Hall. destruct (Hall _ Hin) as [Hdir Hname].
  cbn [fst snd] in *. unfold PyStr.startswith in *.
  apply prefix_trans with dir; [exact Hdir|].
  now apply path_join_prefix.
Qed.

Lemma discovered_paths_under_directory_witness :
  Forall (fun path => PyStr.startswith path "./pdf" = true)
    (discover Demo.w_three "./pdf").
Proof.
  apply (discovered_paths_under_directory Demo.w_three "./pdf"
           Demo.tree_three eq_refl).
  cbn. repeat split; repeat constructor.
Defined.

(** X12.  Only the discovered PDF files are opened.  In a run that
    reached the loop, the loader is called on a path exactly when the
    path is the one of a file below the configured directory whose name
    ends in [.pdf] whatever the case: every such file is opened, and
    nothing else is. *)
Theorem loader_called_on_pdf_files_only
    (w : World) (args : Namespace) (t : Os.dirtree) (path : string) :
  parsed w = Ok args ->
  config_ok w args = true ->
  model_loads w args ->
  w_stat w (pdf_dir args) = Some (Os.NDir t) ->
  In (ELoadAndSplit path) (fst (run w))
  <-> exists dir name,
        In (dir, name) (Os.files_under (pdf_dir args) t)
        /\ is_pdf_name name = true
        /\ path = Os.path_join dir name.
Proof.
  intros Hp Hok Hl Hs.
  assert (Hdisc : In path (discover w (pdf_dir args))
                  <-> exists dir name,
                        In (dir, name) (Os.files_under (pdf_dir args) t)
                        /\ is_pdf_name name = true
                        /\ path = Os.path_join dir name).
  { rewrite (discover_eq w _ t Hs). split.
    - intros Hin. apply (Permutation_in _ (list_sort_perm _)) in Hin.
      unfold pdf_files_under in Hin. apply in_map_iff in Hin.
      destruct Hin as ([dir name] & <- & Hin).
      apply filter_In in Hin as [Hin Hpdf]. now exists dir, name.
    - intros (dir & name & Hin & Hpdf & ->).
      apply (Permutation_in _ (Permutation_sym (list_sort_perm _))).
      unfold pdf_files_under. apply in_map_iff. exists (dir, name).
      split; [reflexivity|]. apply filter_In. now split. }
  rewrite <- Hdisc. clear Hdisc.
  destruct (run_staged w args Hp Hok Hl) as (segs & Hsegs & E).
  rewrite E. clear E.
  assert (Hseg : forall p seg,
             staged_segment args (llm_of args) build_prompt p seg ->
             In (ELoadAndSplit path) seg <-> path = p).
  { intros p seg [pages texts n msg [Hn1 Hn6] _ | pages texts _
                  | pages texts output _].
    - destruct n as [|n]; [lia|]. cbn [firstn doc_calls]. split.
      + intros [H|[H|H]]; [discriminate|now injection H|].
        apply in_app_or in H as [H|[H|[]]]; [|discriminate].
        do 6 (destruct n as [|n]; cbn in H;
              [repeat (destruct H as [H|H]; try discriminate); easy|]).
        cbn in H. repeat (destruct H as [H|H]; try discriminate). easy.
      + intros ->. right. now left.
    - cbn. split.
      + intros H. repeat (destruct H as [H|H]; try discriminate);
          [now injection H|easy].
      + intros ->. right. now left.
    - cbn. split.
      + intros H. repeat (destruct H as [H|H]; try discriminate);
          [now injection H|easy].
      + intros ->. right. now left. }
  assert (Hconcat : In (ELoadAndSplit path) (concat segs)
                    <-> In path (discover w (pdf_dir args))).
  { induction Hsegs as [|p seg paths segs' Hs1 _ IH]; cbn [concat].
    - reflexivity.
    - rewrite in_app_iff, IH, (Hseg p seg Hs1). cbn [In].
      split; (intros [H|H]; [left; congruence|now right]). }
  rewrite <- Hconcat. cbn [In]. rewrite in_app_iff. split.
  - intros [H|[H|H]]; [discriminate|exact H|].
    destruct (is_empty _); [destruct H as [H|[]]; discriminate|easy].
  - intros H. right. now left.
Qed.

Lemma loader_called_on_pdf_files_only_witness :
  In (ELoadAndSplit "./pdf/sub/C.PDF") (fst (run Demo.w_three)).
Proof.
  apply (proj2 (loader_called_on_pdf_files_only Demo.w_three
                  Demo.args_default Demo.tree_three "./pdf/sub/C.PDF"
                  eq_refl eq_refl eq_refl eq_refl)).
  exists "./pdf/sub", "C.PDF". repeat split.
  cbn. do 3 right. now left.
Defined.

(** ** The test on the name of a file *)

Section Suffix.

Lemma substring_all s : substring 0 (String.length s) s = s.
Proof. induction s as [|c s IH]; cbn; [reflexivity|now rewrite IH]. Qed.

Lemma substring_skip pre :
  forall s k,
    substring (String.length pre) k (pre ++ s)%string = substring 0 k s.
Proof. induction pre as [|c pre IH]; intros s k; cbn; [reflexivity|apply IH]. Qed.

Lemma length_append a b :
  String.length (a ++ b)%string = String.length a + String.length b.
Proof. induction a as [|c a IH]; cbn; [reflexivity|now rewrite IH]. Qed.

(** A string is its first [m] characters followed by the rest. *)
Lemma substring_split s :
  forall m,
    m <= String.length s ->
    s = (substring 0 m s ++ substring m (String.length s - m) s)%string.
Proof.
  induction s as [|c s IH]; intros m Hm.
  - destruct m; [reflexivity|cbn in Hm; lia].
  - destruct m as [|m].
    + cbn [substring append Nat.sub String.length].
      now rewrite substring_all.
    + cbn in Hm. cbn [substring append String.length Nat.sub].
      f_equal. apply IH. lia.
Qed.

(** [s.endswith(suf)] is true exactly when [s] is some text followed by
    [suf]. *)
Lemma endswith_iff s suf :
  PyStr.endswith s suf = true <-> exists pre, s = (pre ++ suf)%string.
Proof.
  unfold PyStr.endswith. rewrite andb_true_iff, Nat.leb_le, String.eqb_eq.
  split.
  - intros [Hle Hsub].
    exists (substring 0 (String.length s - String.length suf) s).
    pose proof (substring_split s (String.length s - String.length suf))
      as H.
    replace (String.length s - (String.length s - String.length suf))
      with (String.length suf) in H by lia.
    rewrite Hsub in H. apply H. lia.
  - intros (pre & ->). rewrite length_append. split; [lia|].
    replace (String.length pre + String.length suf - String.length suf)
      with (String.length pre) by lia.
    rewrite substring_skip. apply substring_all.
Qed.

Lemma length_lower s : String.length (PyStr.lower s) = String.length s.
Proof. induction s as [|c s IH]; cbn; [reflexivity|now rewrite IH]. Qed.

End Suffix.

(** X13.  Which names are PDF names.  A file is selected exactly when its
    name, put in lower case, is some text, possibly empty, followed by
    [.pdf]; a name of fewer than four characters is never selected, and
    two names that differ only by the case of their letters are selected
    together or not at all. *)
Theorem pdf_name_iff (name : string) :
  (is_pdf_name name = true
   <-> exists stem, PyStr.lower name = (stem ++ ".pdf")%string)
  /\ (String.length name < 4 -> is_pdf_name name = false)
  /\ (forall other,
         PyStr.lower other = PyStr.lower name ->
         is_pdf_name other = is_pdf_name name).
Proof.
  split; [apply endswith_iff|]. split.
  - intros Hlen. destruct (is_pdf_name name) eqn:H; [|reflexivity].
    apply endswith_iff in H as (stem & H).
    apply (f_equal String.length) in H.
    rewrite length_lower, length_append in H. cbn in H. lia.
  - intros other H. unfold is_pdf_name. now rewrite H.
Qed.

Lemma pdf_name_iff_witness :
  is_pdf_name "a" = false /\ is_pdf_name ".PdF" = true.
Proof.
  split.
  - apply (proj1 (proj2 (pdf_name_iff "a"))). cbn. lia.
  - apply (proj1 (pdf_name_iff ".PdF")). now exists "".
Defined.
